(** * excel_to_pdf: one PDF per spreadsheet row

    A shallow embedding of [src/excel_to_pdf.py] (class
    [ExcelToPdfConverter]) and the properties of it that the specification
    states.

    The program is glue between three libraries: [pandas] reads the
    workbook, [reportlab] lays a row out as a titled two-column table, [os]
    and [pathlib] name and create the output.  What the program does with
    them is embedded as it is written; the libraries themselves are modelled
    by the small part of their behaviour the program observes:

    - the file system is a finite map from paths to files, a file being a
      workbook, a written document or anything else, and a set of
      directories;
    - whether building a document at a path raises is an oracle of the
      environment ([write_error]), for the exceptions raised before the
      file is opened, which leave the file system as it was;
    - a written document is kept as the document handed to [doc.build]
      ([files]) and the time of the build ([written_at]), which [reportlab]
      writes into the file; when a build happens is the environment's
      ([build_time]);
    - standard output is the list of the lines printed so far. *)

From Stdlib Require Import ZArith NArith Ascii String DecimalString DecimalZ DecimalN.
From stdpp Require Import base gmap strings list.

Local Open Scope Z_scope.

(** ** Python built-ins *)

Module Py.

(** [str(n)] for an [int]. *)
Definition str_int (z : Z) : string := NilEmpty.string_of_int (Z.to_int z).

Fixpoint zeros (k : nat) : string :=
  match k with
  | O => ""
  | S k => String "0" (zeros k)
  end.

(** [f"{n:03d}"]: the decimal digits, filled with zeros after the sign up
    to a width of 3; longer numbers are not cut. *)
Definition format_03d (z : Z) : string :=
  match Z.to_int z with
  | Decimal.Pos d =>
      let s := NilEmpty.string_of_uint d in
      zeros (3 - String.length s) +:+ s
  | Decimal.Neg d =>
      let s := NilEmpty.string_of_uint d in
      "-" +:+ zeros (2 - String.length s) +:+ s
  end.

(** Reads a run of decimal digits back (leading zeros allowed). *)
Definition int_of_digits (s : string) : option Z :=
  Z.of_uint <$> NilEmpty.uint_of_string s.

(** Truth value of a [str]: only the empty string is falsy. *)
Definition bool_str (s : string) : bool :=
  match s with
  | EmptyString => false
  | String _ _ => true
  end.

(** Truth value of an argument that is [None] or a [str]. *)
Definition truthy (a : option string) : bool :=
  match a with
  | None => false
  | Some s => bool_str s
  end.

(** The exceptions that can reach the program's [except Exception]. *)
Inductive exn :=
| FileNotFoundError (path : string)
| FileExistsError (path : string)
| IsADirectoryError (path : string)
| NotADirectoryError (path : string)
| PermissionError (path : string)
| ValueError (msg : string)
| IndexError (msg : string)
| OSError (msg : string).

(** The double quote, and the two hexadecimal digits of a character code. *)
Definition dquote : Ascii.ascii := Ascii.ascii_of_nat 34.

Definition hex_digit (n : nat) : Ascii.ascii :=
  Ascii.ascii_of_nat (if (n <? 10)%nat then 48 + n else 87 + n).

Fixpoint contains (c : Ascii.ascii) (s : string) : bool :=
  match s with
  | EmptyString => false
  | String a s' => if Ascii.eqb a c then true else contains c s'
  end.

(** How [repr] writes one character between quotes [q]: the backslash and
    the quote escaped, newline, carriage return and tab by their letter,
    the other control characters as [\xNN].  Text is taken as UTF-8, and
    what lies beyond ASCII is passed on, as its printable characters
    are. *)
Definition repr_char (q c : Ascii.ascii) : string :=
  let n := Ascii.nat_of_ascii c in
  if Ascii.eqb c "\" then "\\"
  else if Ascii.eqb c q then String "\" (String q EmptyString)
  else if (n =? 10)%nat then "\n"
  else if (n =? 13)%nat then "\r"
  else if (n =? 9)%nat then "\t"
  else if (n <? 32)%nat || (n =? 127)%nat
       then String "\" (String "x" (String (hex_digit (n / 16))
                                       (String (hex_digit (n mod 16)) EmptyString)))
  else String c EmptyString.

Fixpoint repr_chars (q : Ascii.ascii) (s : string) : string :=
  match s with
  | EmptyString => EmptyString
  | String c s' => repr_char q c +:+ repr_chars q s'
  end.

(** [repr(s)] for a [str]: single quotes, or double quotes when the text
    has a single quote and no double quote. *)
Definition repr_str (s : string) : string :=
  let q := if contains "'" s && negb (contains dquote s) then dquote else "'"%char in
  String q (repr_chars q s +:+ String q EmptyString).

(** [str(e)]: an error of the operating system shows its number, its
    message and the [repr] of the file name. *)
Definition str_exn (e : exn) : string :=
  match e with
  | FileNotFoundError p => "[Errno 2] No such file or directory: " +:+ repr_str p
  | FileExistsError p => "[Errno 17] File exists: " +:+ repr_str p
  | IsADirectoryError p => "[Errno 21] Is a directory: " +:+ repr_str p
  | NotADirectoryError p => "[Errno 20] Not a directory: " +:+ repr_str p
  | PermissionError p => "[Errno 13] Permission denied: " +:+ repr_str p
  | ValueError m => m
  | IndexError m => m
  | OSError m => m
  end.

(** What a call returns: the program's methods return nothing ([None]);
    [PyInt] is the shape a returned count would have. *)
Inductive retval :=
| PyNone
| PyInt (n : Z).

End Py.

(** ** [os.path] (POSIX) and [pathlib] *)

Module os_path.

Definition startswith_sep (s : string) : bool :=
  match s with
  | String "/" _ => true
  | _ => false
  end.

Fixpoint endswith_sep (s : string) : bool :=
  match s with
  | EmptyString => false
  | String c EmptyString => if Ascii.eqb c "/" then true else false
  | String _ s' => endswith_sep s'
  end.

(** [os.path.join(a, b)]: an absolute [b] replaces [a]; otherwise [b] is
    appended, after a separator unless [a] is empty or ends with one. *)
Definition join (a b : string) : string :=
  if startswith_sep b then b
  else if negb (Py.bool_str a) || endswith_sep a then a +:+ b
  else a +:+ "/" +:+ b.

(** The proper ancestors of a path, outermost first: the prefixes that
    end just before a separator (the root and empty components left
    out).  [acc] is the part of the path already read. *)
Fixpoint parents_from (acc : string) (s : string) : list string :=
  match s with
  | EmptyString => []
  | String c s' =>
      let here :=
        if Ascii.eqb c "/"
        then (if negb (Py.bool_str acc) || endswith_sep acc then [] else [acc])
        else [] in
      here ++ parents_from (acc +:+ String c EmptyString) s'
  end.

Definition parents (p : string) : list string := parents_from "" p.

End os_path.

(** ** [pandas]: frames, rows and workbooks *)

Module pd.

(** A cell of a frame.  The values [pd.isna] accepts are [NA], which
    stands for [NaN] and [None], and [NaT], the missing date of a
    [datetime64] column.  A number or another object is carried by the text
    [str()] gives for it when its row reaches [create_pdf_from_row]: the
    whole numbers of a column with an empty cell are floats by then
    (["28.0"]), and so are those of any column when the frame holds
    nothing but numbers, some of them floats. *)
Inductive cell :=
| NA
| NaT
| Text (s : string)
| Num (repr : string)
| Obj (repr : string).

(** A column label: a string, or another hashable object (a number read
    from a header cell) carried by its [str()]. *)
Inductive label :=
| Name (s : string)
| Key (repr : string).

Definition isna (v : cell) : bool :=
  match v with
  | NA | NaT => true
  | _ => false
  end.

(** [isinstance(value, (int, float))] *)
Definition is_number (v : cell) : bool :=
  match v with
  | Num _ => true
  | _ => false
  end.

(** [str(value)] *)
Definition str (v : cell) : string :=
  match v with
  | NA => "nan"
  | NaT => "NaT"
  | Text s => s
  | Num r => r
  | Obj r => r
  end.

(** [str(column_name)] *)
Definition str_label (c : label) : string :=
  match c with
  | Name s => s
  | Key r => r
  end.

(** A frame read from a sheet: the ordered column labels and the rows of
    cells; the index is the default one, 0, 1, 2, ... *)
Record DataFrame := {
  columns : list label;
  values : list (list cell)
}.

(** Every row has one cell per column. *)
Definition well_formed (df : DataFrame) : bool :=
  forallb (fun row => Nat.eqb (length row) (length (columns df))) (values df).

(** [len(df)] *)
Definition len (df : DataFrame) : nat := length (values df).

(** A row as [iterrows] yields it: the cells keyed by their columns, in
    column order. *)
Abbreviation Series := (list (label * cell)).

(** [row.items()] *)
Definition items (row : Series) : list (label * cell) := row.

(** What [fillna('')] makes of a cell: [NaN] and [None] become the empty
    string.  In a [datetime64] column the filling value is read as a date,
    and the empty string reads as the missing date: [NaT] stays. *)
Definition fillna_cell (v : cell) : cell :=
  match v with
  | NA => Text ""
  | _ => v
  end.

(** [df.fillna('')] *)
Definition fillna_empty (df : DataFrame) : DataFrame :=
  {| columns := columns df;
     values := map (map fillna_cell) (values df) |}.

(** [df.iterrows()]: index label and row, in row order.  The cells are
    handed on as the frame has them, their text being the one they have in
    the row (see [cell]). *)
Definition iterrows (df : DataFrame) : list (Z * Series) :=
  imap (fun i row => (Z.of_nat i, zip (columns df) row)) (values df).

(** A workbook: its sheets in file order, each with the frame the reader
    parses from it. *)
Abbreviation Workbook := (list (string * DataFrame)).

(** Which sheet [read_excel] is asked for: [sheet_name] left at its
    default (position 0), or a name. *)
Inductive sheet_sel :=
| FirstSheet
| Named (name : string).

Definition find_sheet (name : string) (wb : Workbook) : option DataFrame :=
  snd <$> List.find (fun s => String.eqb (fst s) name) wb.

Definition select_sheet (wb : Workbook) (sel : sheet_sel) : Py.exn + DataFrame :=
  match sel with
  | FirstSheet =>
      match wb with
      | (_, df) :: _ => inr df
      | [] => inl (Py.IndexError "list index out of range")
      end
  | Named name =>
      match find_sheet name wb with
      | Some df => inr df
      | None => inl (Py.ValueError ("Worksheet named '" +:+ name +:+ "' not found"))
      end
  end.

(** [xls.sheet_names] *)
Definition sheet_names (wb : Workbook) : list string := map fst wb.

End pd.

(** ** [reportlab]: the flowables of a document *)

Module rl.

Inductive alignment := TA_LEFT | TA_CENTER.

Record ParagraphStyle := {
  style_name : string;
  parent : string;
  fontSize : Z;
  spaceAfter : Z;
  style_alignment : alignment
}.

(** A [TableStyle] command: name, first cell, last cell, arguments. *)
Record style_cmd := {
  cmd : string;
  cell_from : Z * Z;
  cell_to : Z * Z;
  cmd_args : list string
}.

(** Lengths are in points ([inch] is 72). *)
Inductive flowable :=
| Paragraph (text : string) (style : ParagraphStyle)
| Spacer (width height : Z)
| Table (data : list (list string)) (colWidths : list Z) (style : list style_cmd).

(** [SimpleDocTemplate(filename, pagesize, margins)] with the story built
    into it. *)
Record document := {
  pagesize : string;
  rightMargin : Z;
  leftMargin : Z;
  topMargin : Z;
  bottomMargin : Z;
  story : list flowable
}.



(** First and second cell of a table row. *)
Definition field_name (row : list string) : string := nth 0 row "".
Definition field_value (row : list string) : string := nth 1 row "".

(** [Table(data, colWidths=...)] raises [ValueError] for data without a
    row, or whose rows have no cell.  The message names the table by its
    address in memory; its fixed part is kept. *)
Definition Table_error (data : list (list string)) : option Py.exn :=
  if forallb (fun row => Nat.eqb (length row) 0) data
  then Some (Py.ValueError "Table must have at least a row and column")
  else None.

End rl.

(** ** The world the program runs in *)

Inductive file :=
| Xlsx (wb : pd.Workbook)
| Pdf (doc : rl.document)
| Other (bytes : string).

(** [files] and [dirs] are the file system; [written_at] is the time of
    the build of each document [reportlab] has written, which is part of
    the file: its [/CreationDate] and [/ModDate], and the [/ID] derived
    from them.  [write_error] and [build_time] are the environment's:
    whether building a document at a path raises, and the time of that
    build.  [stdout] holds the lines printed. *)
Record world := {
  files : gmap string file;
  dirs : gset string;
  write_error : string -> option Py.exn;
  stdout : list string;
  build_time : string -> Z;
  written_at : gmap string Z
}.

(** Computations that read and change the world. *)
Definition M (A : Type) : Type := world -> A * world.

Global Instance M_ret : MRet M := fun A a w => (a, w).

Global Instance M_bind : MBind M :=
  fun A B k m w => let (a, w') := m w in k a w'.

(** [print(line)] *)
Definition print (line : string) : M unit :=
  fun w => (tt, {| files := files w; dirs := dirs w;
                   write_error := write_error w;
                   stdout := stdout w ++ [line];
                   build_time := build_time w;
                   written_at := written_at w |}).

(** The outcome of an operation that may raise, as a [try] sees it. *)
Definition try {A} (op : world -> Py.exn + A) : M (Py.exn + A) :=
  fun w => (op w, w).

(** [pd.ExcelFile(path)]: the workbook at the path; a directory, a path
    that does not exist and a file that is no workbook each raise. *)
Definition pd_ExcelFile (path : string) (w : world) : Py.exn + pd.Workbook :=
  match files w !! path with
  | None =>
      if bool_decide (path ∈ dirs w) then inl (Py.IsADirectoryError path)
      else inl (Py.FileNotFoundError path)
  | Some (Xlsx wb) => inr wb
  | Some _ =>
      inl (Py.ValueError
             "Excel file format cannot be determined, you must specify an engine manually.")
  end.

(** [pd.read_excel(path)] and [pd.read_excel(path, sheet_name=name)] *)
Definition pd_read_excel (path : string) (sel : pd.sheet_sel) (w : world)
  : Py.exn + pd.DataFrame :=
  match pd_ExcelFile path w with
  | inl e => inl e
  | inr wb => pd.select_sheet wb sel
  end.

(** Whether a path names a file. *)
Definition is_file (w : world) (path : string) : bool :=
  bool_decide (is_Some (files w !! path)).

(** [Path(folder).mkdir(parents=True, exist_ok=True)]: the folder and its
    missing ancestors become directories; a file in the way raises, at the
    folder itself ([FileExistsError]) or among its ancestors
    ([NotADirectoryError]; what lies under a file is no file). *)
Definition mkdir_p (folder : string) (w : world) : Py.exn + world :=
  match files w !! folder with
  | Some _ => inl (Py.FileExistsError folder)
  | None =>
      if existsb (is_file w) (os_path.parents folder)
      then inl (Py.NotADirectoryError folder)
      else
        inr {| files := files w;
               dirs := dirs w ∪ list_to_set (os_path.parents folder) ∪ {[ folder ]};
               write_error := write_error w;
               stdout := stdout w;
               build_time := build_time w;
               written_at := written_at w |}
  end.

(** [doc.build(elements)]: the document is laid out and written at its
    path, with the time of the build in it, unless that raises.  The
    exceptions are those raised before the file is opened (the layout
    fails, the folder is missing, the path may not be written): the path
    then holds what it held. *)
Definition doc_build (path : string) (doc : rl.document) (w : world) : Py.exn + world :=
  match write_error w path with
  | Some e => inl e
  | None =>
      inr {| files := <[ path := Pdf doc ]> (files w);
             dirs := dirs w;
             write_error := write_error w;
             stdout := stdout w;
             build_time := build_time w;
             written_at := <[ path := build_time w path ]> (written_at w) |}
  end.

(** The document of the PDF at a path. *)
Definition document_at (w : world) (path : string) : option rl.document :=
  match files w !! path with
  | Some (Pdf doc) => Some doc
  | _ => None
  end.

(** What is on disk at a path, as far as two files are told apart: the
    file and, for a document [reportlab] wrote, the time written into
    it. *)
Definition on_disk (w : world) (path : string) : option (file * option Z) :=
  match files w !! path with
  | Some f => Some (f, written_at w !! path)
  | None => None
  end.

(** ** The converter *)

Record ExcelToPdfConverter := {
  excel_file_path : string;
  output_folder : string
}.

(** Defaults of the optional arguments. *)
Definition default_output_folder : string := "pdf_output".
Definition default_filename_prefix : string := "row".

(** [ExcelToPdfConverter(excel_file_path, output_folder="pdf_output")];
    [None] for an argument left out. *)
Definition __init__ (excel_file_path : string) (output_folder : option string)
  : M (Py.exn + ExcelToPdfConverter) :=
  let folder := default default_output_folder output_folder in
  let self := {| excel_file_path := excel_file_path; output_folder := folder |} in
  fun w =>
    match mkdir_p folder w with
    | inl e => (inl e, w)
    | inr w' => (inr self, w')
    end.

(** The sheet [read_excel_data] asks [pandas] for: [if sheet_name:] passes
    the name on, [else:] leaves the argument out. *)
Definition sheet_asked (sheet_name : option string) : pd.sheet_sel :=
  match sheet_name with
  | Some name => if Py.truthy sheet_name then pd.Named name else pd.FirstSheet
  | None => pd.FirstSheet
  end.

(** [read_excel_data(self, sheet_name=None)]: the frame, or [None] after
    printing the error. *)
Definition read_excel_data (self : ExcelToPdfConverter) (sheet_name : option string)
  : M (option pd.DataFrame) :=
  r ← try (pd_read_excel (excel_file_path self) (sheet_asked sheet_name));
  match r with
  | inr df =>
      let df := pd.fillna_empty df in
      print ("Successfully read " +:+ Py.str_int (Z.of_nat (pd.len df)) +:+ " rows and "
             +:+ Py.str_int (Z.of_nat (length (pd.columns df)))
             +:+ " columns from Excel file");;
      mret (Some df)
  | inl e =>
      print ("Error reading Excel file: " +:+ Py.str_exn e);;
      mret None
  end.

(** [f"{filename_prefix}_{row_index + 1:03d}.pdf"] *)
Definition pdf_filename (filename_prefix : string) (row_index : Z) : string :=
  filename_prefix +:+ "_" +:+ Py.format_03d (row_index + 1) +:+ ".pdf".

Definition pdf_path (self : ExcelToPdfConverter) (filename_prefix : string) (row_index : Z)
  : string :=
  os_path.join (output_folder self) (pdf_filename filename_prefix row_index).

Definition title_style : rl.ParagraphStyle :=
  {| rl.style_name := "CustomTitle"; rl.parent := "Heading1"; rl.fontSize := 16;
     rl.spaceAfter := 30; rl.style_alignment := rl.TA_CENTER |}.

Definition table_style : list rl.style_cmd :=
  [ {| rl.cmd := "BACKGROUND"; rl.cell_from := (0, 0); rl.cell_to := (0, -1);
       rl.cmd_args := ["lightgrey"] |};
    {| rl.cmd := "TEXTCOLOR"; rl.cell_from := (0, 0); rl.cell_to := (-1, -1);
       rl.cmd_args := ["black"] |};
    {| rl.cmd := "ALIGN"; rl.cell_from := (0, 0); rl.cell_to := (-1, -1);
       rl.cmd_args := ["LEFT"] |};
    {| rl.cmd := "FONTNAME"; rl.cell_from := (0, 0); rl.cell_to := (0, -1);
       rl.cmd_args := ["Helvetica-Bold"] |};
    {| rl.cmd := "FONTNAME"; rl.cell_from := (1, 0); rl.cell_to := (1, -1);
       rl.cmd_args := ["Helvetica"] |};
    {| rl.cmd := "FONTSIZE"; rl.cell_from := (0, 0); rl.cell_to := (-1, -1);
       rl.cmd_args := ["10"] |};
    {| rl.cmd := "BOTTOMPADDING"; rl.cell_from := (0, 0); rl.cell_to := (-1, -1);
       rl.cmd_args := ["12"] |};
    {| rl.cmd := "BACKGROUND"; rl.cell_from := (1, 0); rl.cell_to := (1, -1);
       rl.cmd_args := ["white"] |};
    {| rl.cmd := "GRID"; rl.cell_from := (0, 0); rl.cell_to := (-1, -1);
       rl.cmd_args := ["1"; "black"] |};
    {| rl.cmd := "VALIGN"; rl.cell_from := (0, 0); rl.cell_to := (-1, -1);
       rl.cmd_args := ["TOP"] |} ].

(** The text a value is rendered as. *)
Definition value_str (value : pd.cell) : string :=
  if pd.isna value then ""
  else if pd.is_number value then pd.str value
  else pd.str value.

(** The loop that fills [table_data]: one two-cell row per item. *)
Definition table_data_of (row_data : pd.Series) : list (list string) :=
  foldl (fun table_data '(column_name, value) =>
           table_data ++ [[pd.str_label column_name; value_str value]])
        [] (pd.items row_data).

(** The flowables of one record: title, spacer, table. *)
Definition elements_of (row_data : pd.Series) (row_index : Z) : list rl.flowable :=
  [ rl.Paragraph ("Record " +:+ Py.str_int (row_index + 1)) title_style;
    rl.Spacer 1 12;
    rl.Table (table_data_of row_data) [180; 288] table_style ].

Definition document_of (row_data : pd.Series) (row_index : Z) : rl.document :=
  {| rl.pagesize := "A4"; rl.rightMargin := 72; rl.leftMargin := 72;
     rl.topMargin := 72; rl.bottomMargin := 18;
     rl.story := elements_of row_data row_index |}.

(** [create_pdf_from_row] once its table is made (lines 104 to 126): the
    document is built under [try], and the outcome printed. *)
Definition build_pdf (self : ExcelToPdfConverter) (row_data : pd.Series)
    (row_index : Z) (filename_prefix : option string) : M Py.retval :=
  let filename_prefix := default default_filename_prefix filename_prefix in
  let pdf_filename := pdf_filename filename_prefix row_index in
  let pdf_path := os_path.join (output_folder self) pdf_filename in
  fun w =>
    match doc_build pdf_path (document_of row_data row_index) w with
    | inr w' => (print ("Created PDF: " +:+ pdf_filename);; mret Py.PyNone) w'
    | inl e =>
        (print ("Error creating PDF " +:+ pdf_filename +:+ ": " +:+ Py.str_exn e);;
         mret Py.PyNone) w
    end.

(** [create_pdf_from_row(self, row_data, row_index, filename_prefix="row")]:
    [Table(table_data, ...)] stands outside the [try], so what it raises
    leaves the method; the rest is [build_pdf]. *)
Definition create_pdf_from_row (self : ExcelToPdfConverter) (row_data : pd.Series)
    (row_index : Z) (filename_prefix : option string) : M (Py.exn + Py.retval) :=
  fun w =>
    match rl.Table_error (table_data_of row_data) with
    | Some e => (inl e, w)
    | None =>
        let (r, w') := build_pdf self row_data row_index filename_prefix w in
        (inr r, w')
    end.

(** [for x in l: body(x)] *)
Fixpoint for_each {A} (l : list A) (body : A -> M Py.retval) : M unit :=
  match l with
  | [] => mret tt
  | x :: l => body x;; for_each l body
  end.

(** [for x in l: body(x)] for a body that may raise: the first exception
    ends the loop. *)
Fixpoint for_each_raising {A} (l : list A) (body : A -> M (Py.exn + Py.retval))
  : M (Py.exn + unit) :=
  match l with
  | [] => mret (inr tt)
  | x :: l =>
      fun w =>
        match body x w with
        | (inl e, w') => (inl e, w')
        | (inr _, w') => for_each_raising l body w'
        end
  end.

(** [convert_all_rows(self, sheet_name=None, filename_prefix="row")].  A
    row of a sheet has a cell for each of the sheet's columns, and a sheet
    with a row has a column: the table of such a row is made, no call of
    [create_pdf_from_row] raises, and the loop over these calls
    ([for_each_raising]) is the loop over [build_pdf]. *)
Definition convert_all_rows (self : ExcelToPdfConverter) (sheet_name : option string)
    (filename_prefix : option string) : M Py.retval :=
  let filename_prefix := default default_filename_prefix filename_prefix in
  df ← read_excel_data self sheet_name;
  match df with
  | None => mret Py.PyNone
  | Some df =>
      print ("Processing " +:+ Py.str_int (Z.of_nat (pd.len df)) +:+ " rows...");;
      for_each (pd.iterrows df)
        (fun '(index, row) => build_pdf self row index (Some filename_prefix));;
      print ("Conversion complete! " +:+ Py.str_int (Z.of_nat (pd.len df))
             +:+ " PDFs created in '" +:+ output_folder self +:+ "' folder");;
      mret Py.PyNone
  end.

(** [list_sheets(self)]: the sheet names, or the empty list after printing
    the error. *)
Definition list_sheets (self : ExcelToPdfConverter) : M (list string) :=
  r ← try (pd_ExcelFile (excel_file_path self));
  match r with
  | inr xls => mret (pd.sheet_names xls)
  | inl e =>
      print ("Error reading Excel file: " +:+ Py.str_exn e);;
      mret []
  end.

(** ** Vocabulary of the statements *)

(** The value a computation returns and the world it leaves. *)
Definition eval {A} (m : M A) (w : world) : A := fst (m w).
Definition exec {A} (m : M A) (w : world) : world := snd (m w).

(** The paths of the records 1 to [n], in order. *)
Definition record_paths (self : ExcelToPdfConverter) (filename_prefix : string) (n : nat)
  : list string :=
  map (fun i : nat => pdf_path self filename_prefix (Z.of_nat i)) (seq 0 n).

(** The line [create_pdf_from_row] prints for a row, given whether writing
    its file raises. *)
Definition row_line (self : ExcelToPdfConverter) (filename_prefix : string)
    (w : world) (row_index : Z) : string :=
  match write_error w (pdf_path self filename_prefix row_index) with
  | None => "Created PDF: " +:+ pdf_filename filename_prefix row_index
  | Some e =>
      "Error creating PDF " +:+ pdf_filename filename_prefix row_index +:+ ": "
      +:+ Py.str_exn e
  end.

(** The files that are in [after] and were not in [before]. *)
Definition new_files (before after : world) : gset string :=
  dom (files after) ∖ dom (files before).

(** ** Worlds used as examples *)

(** The workbook of the specification's scenario, with a second sheet and
    two missing cells: columns [Name] and [Age], the ages read as floats
    since one is missing. *)
Definition staff : pd.DataFrame :=
  {| pd.columns := [pd.Name "Name"; pd.Name "Age"];
     pd.values := [ [pd.Text "John Doe"; pd.Num "28.0"];
                    [pd.Text "Jane Smith"; pd.NA];
                    [pd.NA; pd.Num "42.0"];
                    [pd.Text "Sarah Wilson"; pd.Num "29.0"] ] |}.

Definition offices : pd.DataFrame :=
  {| pd.columns := [pd.Name "City"];
     pd.values := [ [pd.Text "Boston"]; [pd.Text "Chicago"] ] |}.

Definition no_write_error : string -> option Py.exn := fun _ => None.

(** The second record of prefix [emp] may not be written. *)
Definition second_fails : string -> option Py.exn :=
  fun path =>
    if String.eqb path "out/emp_002.pdf" then Some (Py.PermissionError path)
    else None.

(** A time of day, in seconds. *)
Definition noon : Z := 1700049600.

Definition office_world (faults : string -> option Py.exn) : world :=
  {| files := {[ "staff.xlsx" := Xlsx [("Staff", staff); ("Offices", offices)];
                 "out/notes.txt" := Other "keep me" ]};
     dirs := {[ "out" ]};
     write_error := faults;
     stdout := [];
     build_time := fun _ => noon;
     written_at := ∅ |}.

(** A sheet with a column of dates, one of them missing. *)
Definition projects : pd.DataFrame :=
  {| pd.columns := [pd.Name "Project"; pd.Name "Due"];
     pd.values := [ [pd.Text "Atlas"; pd.Obj "2024-03-01 00:00:00"];
                    [pd.Text "Borealis"; pd.NaT] ] |}.

Definition project_world : world :=
  {| files := {[ "projects.xlsx" := Xlsx [("Projects", projects)] ]};
     dirs := {[ "out" ]};
     write_error := no_write_error;
     stdout := [];
     build_time := fun _ => noon;
     written_at := ∅ |}.

Definition project_converter : ExcelToPdfConverter :=
  {| excel_file_path := "projects.xlsx"; output_folder := "out" |}.

(** The workbook beside an empty output folder, at a given time. *)
Definition empty_folder_world (faults : string -> option Py.exn) (now : Z) : world :=
  {| files := {[ "staff.xlsx" := Xlsx [("Staff", staff); ("Offices", offices)] ]};
     dirs := {[ "out" ]};
     write_error := faults;
     stdout := [];
     build_time := fun _ => now;
     written_at := ∅ |}.

(** A world as it is a minute later. *)
Definition a_minute_later (w : world) : world :=
  {| files := files w;
     dirs := dirs w;
     write_error := write_error w;
     stdout := stdout w;
     build_time := fun path => build_time w path + 60;
     written_at := written_at w |}.

Definition office_converter : ExcelToPdfConverter :=
  {| excel_file_path := "staff.xlsx"; output_folder := "out" |}.

(** The office after a conversion in which the second record fails. *)
Definition office_first_run : world :=
  exec (convert_all_rows office_converter None (Some "emp")) (office_world second_fails).

Definition lost_converter : ExcelToPdfConverter :=
  {| excel_file_path := "missing.xlsx"; output_folder := "out" |}.

(** ** The command line: [main] *)

(** How a run of [main] can stop short: an exception nobody catches, or
    [input()] finding the input at its end ([EOFError]). *)
Inductive stop :=
| Uncaught (e : Py.exn)
| EOFError.

(** Computations that also read lines from standard input: the lines not
    read yet are threaded along, and a stop ends the computation. *)
Definition IO (A : Type) : Type := list string -> world -> (stop + A) * list string * world.

Global Instance IO_ret : MRet IO := fun A a stdin w => (inr a, stdin, w).

Global Instance IO_bind : MBind IO :=
  fun A B k m stdin w =>
    match m stdin w with
    | (inl s, stdin', w') => (inl s, stdin', w')
    | (inr a, stdin', w') => k a stdin' w'
    end.

(** A computation that reads no input and does not stop. *)
Definition lift {A} (m : M A) : IO A :=
  fun stdin w => let (a, w') := m w in (inr a, stdin, w').

(** An operation that may raise, with no [try] around it. *)
Definition unguarded {A} (m : M (Py.exn + A)) : IO A :=
  fun stdin w =>
    match m w with
    | (inl e, w') => (inl (Uncaught e), stdin, w')
    | (inr a, w') => (inr a, stdin, w')
    end.

(** [Path(folder).mkdir(parents=True, exist_ok=True)] as a statement. *)
Definition mkdir (folder : string) : M (Py.exn + unit) :=
  fun w =>
    match mkdir_p folder w with
    | inl e => (inl e, w)
    | inr w' => (inr tt, w')
    end.

(** [input(prompt)]: the prompt is written (an entry of its own in
    [stdout]), then the next line is read. *)
Definition input (prompt : string) : IO string :=
  fun stdin w =>
    match stdin with
    | [] => (inl EOFError, [], exec (print prompt) w)
    | line :: rest => (inr line, rest, exec (print prompt) w)
    end.

(** The newline character. *)
Definition nl : string := String (Ascii.ascii_of_nat 10) EmptyString.

(** [os.path.exists(path)]: a file or a directory is there. *)
Definition os_path_exists (path : string) : M bool :=
  fun w =>
    (match files w !! path with
     | Some _ => true
     | None => bool_decide (path ∈ dirs w)
     end, w).

(** [for line in lines: print(line)] *)
Fixpoint print_each (lines : list string) : M unit :=
  match lines with
  | [] => mret tt
  | line :: lines => print line;; print_each lines
  end.

Section command_line.

(** The built-ins [main] calls on what the user types, taken as they are:
    [str.strip], [int] of a string ([None] when it raises [ValueError]),
    and the text of a list of strings in an f-string. *)
Variable strip : string -> string.
Variable int : string -> option Z.
Variable str_list : list string -> string.

(** The path of the workbook: the first argument, or a line asked for. *)
Definition ask_excel_file (argv : list string) : IO string :=
  match argv with
  | _ :: excel_file :: _ => mret excel_file
  | _ => input "Enter the path to your Excel file: "
  end.

(** The sheet to process; [None] is Python's. *)
Definition ask_sheet (sheets : list string) : IO (option string) :=
  if (1 <? length sheets)%nat then
    lift (print (nl +:+ "Multiple sheets found:"));;
    lift (print_each
            (imap (fun i sheet => Py.str_int (Z.of_nat i + 1) +:+ ". " +:+ sheet) sheets));;
    choice ← input (nl +:+ "Enter sheet number (or press Enter for first sheet): ");
    if Py.bool_str (strip choice) then
      match int choice with
      | Some n =>
          let sheet_index := n - 1 in
          if (0 <=? sheet_index) && (sheet_index <? Z.of_nat (length sheets)) then
            mret (sheets !! Z.to_nat sheet_index)
          else
            lift (print "Invalid selection, using first sheet");;
            mret (head sheets)
      | None =>
          lift (print "Invalid input, using first sheet");;
          mret (head sheets)
      end
    else mret (head sheets)
  else mret (head sheets).

Definition ask_filename_prefix : IO string :=
  line ← input "Enter filename prefix (default: 'row'): ";
  let filename_prefix := strip line in
  mret (if Py.bool_str filename_prefix then filename_prefix else "row").

Definition ask_output_folder : IO string :=
  line ← input "Enter output folder name (default: 'pdf_output'): ";
  let output_folder := strip line in
  mret (if Py.bool_str output_folder then output_folder else "pdf_output").

(** [main] from "Create converter instance" on: what it does once the
    file is found. *)
Definition main_with_file (excel_file : string) : IO unit :=
  converter ← unguarded (__init__ excel_file None);
  sheets ← lift (list_sheets converter);
  lift (print (nl +:+ "Available sheets: " +:+ str_list sheets));;
  selected_sheet ← ask_sheet sheets;
  filename_prefix ← ask_filename_prefix;
  output_folder ← ask_output_folder;
  let converter := {| excel_file_path := excel_file_path converter;
                      output_folder := output_folder |} in
  unguarded (mkdir output_folder);;
  lift (convert_all_rows converter selected_sheet (Some filename_prefix));;
  mret tt.

(** [main()], with [sys.argv] and the lines of standard input. *)
Definition main (argv : list string) : IO unit :=
  lift (print "Excel to PDF Converter");;
  lift (print (String.concat "" (replicate 50 "=")));;
  excel_file ← ask_excel_file argv;
  found ← lift (os_path_exists excel_file);
  if negb found then
    lift (print ("Error: File '" +:+ excel_file +:+ "' not found!"))
  else main_with_file excel_file.

End command_line.

(** ** Built-ins on plain ASCII text, for the examples *)

Fixpoint lstrip (s : string) : string :=
  match s with
  | String c s' => if Ascii.is_space c then lstrip s' else s
  | EmptyString => EmptyString
  end.

(** [str.strip] on ASCII text. *)
Definition ascii_strip (s : string) : string :=
  String.rev (lstrip (String.rev (lstrip s))).

Definition is_digit (c : Ascii.ascii) : bool :=
  (48 <=? Ascii.nat_of_ascii c)%nat && (Ascii.nat_of_ascii c <=? 57)%nat.

(** The digits of a numeral, in which one underscore may stand between
    two digits. *)
Fixpoint plain_digits (after_digit : bool) (s : string) : option string :=
  match s with
  | EmptyString => if after_digit then Some EmptyString else None
  | String c s' =>
      if is_digit c then String c <$> plain_digits true s'
      else if Ascii.eqb c "_" && after_digit then plain_digits false s'
      else None
  end.

(** [int] on ASCII text: spaces around, a sign, decimal digits with single
    underscores between them.  The digits of other scripts, which [int]
    reads too, are not read here. *)
Definition ascii_int (s : string) : option Z :=
  match ascii_strip s with
  | String "-" d => Z.opp <$> (plain_digits false d ≫= Py.int_of_digits)
  | String "+" d => plain_digits false d ≫= Py.int_of_digits
  | t => plain_digits false t ≫= Py.int_of_digits
  end.

(** The text of a list of strings that need no escape. *)
Definition ascii_str_list (l : list string) : string :=
  "[" +:+ String.concat ", " (map (fun s => "'" +:+ s +:+ "'") l) +:+ "]".

(** [main] with these built-ins. *)
Definition run_main (argv stdin : list string) (w : world)
  : (stop + unit) * list string * world :=
  main ascii_strip ascii_int ascii_str_list argv stdin w.

(** * Properties *)

(** ** Strings, numbers and paths *)

Lemma append_cons (c : Ascii.ascii) (s t : string) : String c s +:+ t = String c (s +:+ t).
Proof. reflexivity. Qed.

Lemma append_length (s t : string) :
  String.length (s +:+ t) = (String.length s + String.length t)%nat.
Proof.
  induction s as [|c s IH]; [done |].
  rewrite append_cons. simpl. by rewrite IH.
Qed.

(** Appending on the right can be cancelled, as on the left. *)
Lemma append_inj_r (t s1 s2 : string) : s1 +:+ t = s2 +:+ t → s1 = s2.
Proof.
  revert s2. induction s1 as [|c s1 IH]; intros [|c' s2] H.
  - done.
  - apply (f_equal String.length) in H.
    rewrite !append_length in H. simpl in H. lia.
  - apply (f_equal String.length) in H.
    rewrite !append_length in H. simpl in H. lia.
  - rewrite !append_cons in H. injection H as -> H. f_equal. by apply IH.
Qed.

Lemma zeros_length (k : nat) : String.length (Py.zeros k) = k.
Proof. induction k; simpl; congruence. Qed.

Lemma uint_of_string_zeros (k : nat) (d : Decimal.uint) :
  NilEmpty.uint_of_string (Py.zeros k +:+ NilEmpty.string_of_uint d)
  = Some (Nat.iter k Decimal.D0 d).
Proof.
  induction k as [|k IH].
  - apply NilEmpty.usu.
  - simpl Py.zeros. rewrite append_cons. simpl. by rewrite IH.
Qed.

Lemma of_uint_leading_zeros (k : nat) (d : Decimal.uint) :
  Z.of_uint (Nat.iter k Decimal.D0 d) = Z.of_uint d.
Proof. induction k as [|k IH]; simpl; [done | exact IH]. Qed.

(** The digits [format_03d] prints read back as the number printed. *)
Lemma format_03d_digits (z : Z) : 0 <= z → Py.int_of_digits (Py.format_03d z) = Some z.
Proof.
  intros Hz. unfold Py.int_of_digits, Py.format_03d.
  pose proof (DecimalZ.of_to z) as Hof.
  destruct (Z.to_int z) as [d|d] eqn:E.
  - rewrite uint_of_string_zeros. simpl. f_equal.
    rewrite of_uint_leading_zeros. exact Hof.
  - destruct z; simpl in E; try discriminate. lia.
Qed.

Lemma format_03d_inj (z1 z2 : Z) :
  0 <= z1 → 0 <= z2 → Py.format_03d z1 = Py.format_03d z2 → z1 = z2.
Proof.
  intros H1 H2 E. apply (f_equal Py.int_of_digits) in E.
  rewrite !format_03d_digits in E by done. congruence.
Qed.

(** At least three characters are printed. *)
Lemma format_03d_width (z : Z) : 0 <= z → (3 <= String.length (Py.format_03d z))%nat.
Proof.
  intros Hz. unfold Py.format_03d.
  destruct (Z.to_int z) as [d|d] eqn:E.
  - rewrite append_length, zeros_length. lia.
  - destruct z; simpl in E; try discriminate. lia.
Qed.

(** Up to 999 exactly three characters are printed. *)
Lemma format_03d_three (z : Z) : 0 <= z < 1000 → String.length (Py.format_03d z) = 3%nat.
Proof.
  intros Hz.
  assert (Hall : forallb (fun i => Nat.eqb (String.length (Py.format_03d (Z.of_nat i))) 3)
                   (seq 0 1000) = true) by (vm_compute; reflexivity).
  rewrite forallb_forall in Hall.
  specialize (Hall (Z.to_nat z)). rewrite Z2Nat.id in Hall by lia.
  apply Nat.eqb_eq, Hall, in_seq. lia.
Qed.

(** File names in error messages are quoted as [repr] quotes them. *)
Example repr_str_examples :
  Py.repr_str "out/emp_002.pdf" = "'out/emp_002.pdf'"
  ∧ Py.repr_str "it's" = String Py.dquote ("it's" +:+ String Py.dquote "")
  ∧ Py.repr_str "a\b" = "'a\\b'"
  ∧ Py.repr_str (String (Ascii.ascii_of_nat 9) "x") = "'\tx'".
Proof. repeat split; reflexivity. Qed.

Example format_03d_examples :
  Py.format_03d 1 = "001" ∧ Py.format_03d 42 = "042" ∧ Py.format_03d 999 = "999"
  ∧ Py.format_03d 1000 = "1000".
Proof. repeat split; reflexivity. Qed.

Lemma pdf_filename_inj (prefix : string) (i j : Z) :
  0 <= i → 0 <= j → pdf_filename prefix i = pdf_filename prefix j → i = j.
Proof.
  intros Hi Hj E. unfold pdf_filename in E.
  apply (inj (String.append prefix)), (inj (String.append "_")) in E.
  apply append_inj_r, format_03d_inj in E; lia.
Qed.

(** Whether a file name is absolute is decided by the prefix alone. *)
Lemma pdf_filename_startswith_sep (prefix : string) (i : Z) :
  os_path.startswith_sep (pdf_filename prefix i) = os_path.startswith_sep prefix.
Proof. unfold pdf_filename. by destruct prefix as [|c prefix]. Qed.

Lemma join_inj (a b1 b2 : string) :
  os_path.startswith_sep b1 = os_path.startswith_sep b2 →
  os_path.join a b1 = os_path.join a b2 → b1 = b2.
Proof.
  unfold os_path.join. intros ->.
  destruct (os_path.startswith_sep b2); [done |].
  destruct (negb (Py.bool_str a) || os_path.endswith_sep a); intros E.
  - by apply (inj (String.append a)) in E.
  - by apply (inj (String.append a)), (inj (String.append "/")) in E.
Qed.

(** Different rows are written to different paths. *)
Lemma pdf_path_inj (self : ExcelToPdfConverter) (prefix : string) (i j : Z) :
  0 <= i → 0 <= j → pdf_path self prefix i = pdf_path self prefix j → i = j.
Proof.
  intros Hi Hj E. unfold pdf_path in E.
  apply join_inj in E; [by apply pdf_filename_inj in E |].
  by rewrite !pdf_filename_startswith_sep.
Qed.

(** ** Printing *)

Lemma print_files (line : string) (w : world) : files (exec (print line) w) = files w.
Proof. reflexivity. Qed.

Lemma print_dirs (line : string) (w : world) : dirs (exec (print line) w) = dirs w.
Proof. reflexivity. Qed.

Lemma print_write_error (line : string) (w : world) :
  write_error (exec (print line) w) = write_error w.
Proof. reflexivity. Qed.

Lemma print_stdout (line : string) (w : world) :
  stdout (exec (print line) w) = stdout w ++ [line].
Proof. reflexivity. Qed.

Lemma print_build_time (line : string) (w : world) :
  build_time (exec (print line) w) = build_time w.
Proof. reflexivity. Qed.

Lemma print_written_at (line : string) (w : world) :
  written_at (exec (print line) w) = written_at w.
Proof. reflexivity. Qed.

(** ** One row *)

Section one_row.
Context (self : ExcelToPdfConverter) (prefix : string).
Implicit Types (row : pd.Series) (i : Z) (w : world).

Lemma build_pdf_unfold row i w :
  build_pdf self row i (Some prefix) w
  = (Py.PyNone,
     {| files := match write_error w (pdf_path self prefix i) with
                 | None => <[ pdf_path self prefix i := Pdf (document_of row i) ]> (files w)
                 | Some _ => files w
                 end;
        dirs := dirs w;
        write_error := write_error w;
        stdout := stdout w ++ [row_line self prefix w i];
        build_time := build_time w;
        written_at := match write_error w (pdf_path self prefix i) with
                      | None => <[ pdf_path self prefix i := build_time w (pdf_path self prefix i) ]>
                                  (written_at w)
                      | Some _ => written_at w
                      end |}).
Proof.
  unfold build_pdf, doc_build, row_line, pdf_path. simpl.
  by destruct (write_error w _).
Qed.


Lemma row_write_error row i w :
  write_error (exec (build_pdf self row i (Some prefix)) w) = write_error w.
Proof. unfold exec. by rewrite build_pdf_unfold. Qed.

Lemma row_dirs row i w :
  dirs (exec (build_pdf self row i (Some prefix)) w) = dirs w.
Proof. unfold exec. by rewrite build_pdf_unfold. Qed.

Lemma row_stdout row i w :
  stdout (exec (build_pdf self row i (Some prefix)) w)
  = stdout w ++ [row_line self prefix w i].
Proof. unfold exec. by rewrite build_pdf_unfold. Qed.

Lemma row_files row i w :
  files (exec (build_pdf self row i (Some prefix)) w)
  = match write_error w (pdf_path self prefix i) with
    | None => <[ pdf_path self prefix i := Pdf (document_of row i) ]> (files w)
    | Some _ => files w
    end.
Proof. unfold exec. by rewrite build_pdf_unfold. Qed.

Lemma row_build_time row i w :
  build_time (exec (build_pdf self row i (Some prefix)) w) = build_time w.
Proof. unfold exec. by rewrite build_pdf_unfold. Qed.

Lemma row_written_at row i w :
  written_at (exec (build_pdf self row i (Some prefix)) w)
  = match write_error w (pdf_path self prefix i) with
    | None => <[ pdf_path self prefix i := build_time w (pdf_path self prefix i) ]>
                (written_at w)
    | Some _ => written_at w
    end.
Proof. unfold exec. by rewrite build_pdf_unfold. Qed.

End one_row.

(** ** The loop over the rows *)

Section rows.
Context (self : ExcelToPdfConverter) (prefix : string).
Implicit Types (rows : list (Z * pd.Series)) (w : world).

Local Abbreviation loop rows :=
  (for_each rows (fun '(index, row) => build_pdf self row index (Some prefix))).
Local Abbreviation path_of := (fun ir : Z * pd.Series => pdf_path self prefix ir.1).

Lemma loop_cons ir rows w :
  exec (loop (ir :: rows)) w
  = exec (loop rows) (exec (build_pdf self ir.2 ir.1 (Some prefix)) w).
Proof.
  destruct ir as [i row]. unfold exec. simpl.
  unfold mbind, M_bind. by destruct (build_pdf _ _ _ _ w).
Qed.

Lemma loop_write_error rows w : write_error (exec (loop rows) w) = write_error w.
Proof.
  revert w. induction rows as [|ir rows IH]; intros w; [done |].
  by rewrite loop_cons, IH, row_write_error.
Qed.

Lemma loop_dirs rows w : dirs (exec (loop rows) w) = dirs w.
Proof.
  revert w. induction rows as [|ir rows IH]; intros w; [done |].
  by rewrite loop_cons, IH, row_dirs.
Qed.

Lemma row_line_write_error w w' i :
  write_error w' = write_error w → row_line self prefix w' i = row_line self prefix w i.
Proof. unfold row_line. by intros ->. Qed.

Lemma loop_stdout rows w :
  stdout (exec (loop rows) w)
  = stdout w ++ map (fun ir => row_line self prefix w ir.1) rows.
Proof.
  revert w. induction rows as [|ir rows IH]; intros w.
  - simpl. by rewrite app_nil_r.
  - rewrite loop_cons, IH, row_stdout, <- app_assoc. simpl. do 2 f_equal.
    apply map_ext. intros ir'. apply row_line_write_error, row_write_error.
Qed.

(** A path no row is written to is left alone. *)
Lemma loop_files_other rows w (p : string) :
  (∀ ir, ir ∈ rows → path_of ir ≠ p) →
  files (exec (loop rows) w) !! p = files w !! p.
Proof.
  revert w. induction rows as [|ir rows IH]; intros w Hp; [done |].
  rewrite loop_cons, IH.
  - rewrite row_files. destruct (write_error w _); [done |].
    apply lookup_insert_ne, Hp. by left.
  - intros ir' Hin. apply Hp. by right.
Qed.

(** A row's path holds its document when the write succeeds, and what it
    held before when it raises. *)
Lemma loop_files_row rows w i row :
  NoDup (map path_of rows) → (i, row) ∈ rows →
  files (exec (loop rows) w) !! pdf_path self prefix i
  = match write_error w (pdf_path self prefix i) with
    | None => Some (Pdf (document_of row i))
    | Some _ => files w !! pdf_path self prefix i
    end.
Proof.
  revert w. induction rows as [|ir rows IH]; intros w Hnd Hin.
  - by apply elem_of_nil in Hin.
  - apply NoDup_cons in Hnd as [Hfresh Hnd]. rewrite loop_cons.
    apply elem_of_cons in Hin as [<- | Hin].
    + rewrite loop_files_other.
      * rewrite row_files. simpl.
        destruct (write_error w _); [done |]. apply lookup_insert_eq.
      * intros ir' Hin' E. apply Hfresh. simpl. rewrite <- E.
        apply (list_elem_of_fmap_2 path_of _ _ Hin').
    + rewrite IH, row_write_error, row_files by done.
      destruct (write_error w (pdf_path self prefix i)) eqn:Ew; [| done].
      destruct (write_error w (pdf_path self prefix ir.1)); [done |].
      apply lookup_insert_ne. intros E. apply Hfresh. rewrite E.
      apply (list_elem_of_fmap_2 path_of _ _ Hin).
Qed.

Lemma loop_build_time rows w : build_time (exec (loop rows) w) = build_time w.
Proof.
  revert w. induction rows as [|ir rows IH]; intros w; [done |].
  by rewrite loop_cons, IH, row_build_time.
Qed.

(** The time of a build is recorded with the file. *)
Lemma loop_written_at_other rows w (p : string) :
  (∀ ir, ir ∈ rows → path_of ir ≠ p) →
  written_at (exec (loop rows) w) !! p = written_at w !! p.
Proof.
  revert w. induction rows as [|ir rows IH]; intros w Hp; [done |].
  rewrite loop_cons, IH.
  - rewrite row_written_at. destruct (write_error w _); [done |].
    apply lookup_insert_ne, Hp. by left.
  - intros ir' Hin. apply Hp. by right.
Qed.

Lemma loop_written_at_row rows w i row :
  NoDup (map path_of rows) → (i, row) ∈ rows →
  written_at (exec (loop rows) w) !! pdf_path self prefix i
  = match write_error w (pdf_path self prefix i) with
    | None => Some (build_time w (pdf_path self prefix i))
    | Some _ => written_at w !! pdf_path self prefix i
    end.
Proof.
  revert w. induction rows as [|ir rows IH]; intros w Hnd Hin.
  - by apply elem_of_nil in Hin.
  - apply NoDup_cons in Hnd as [Hfresh Hnd]. rewrite loop_cons.
    apply elem_of_cons in Hin as [<- | Hin].
    + rewrite loop_written_at_other.
      * rewrite row_written_at. simpl.
        destruct (write_error w _); [done |]. apply lookup_insert_eq.
      * intros ir' Hin' E. apply Hfresh. simpl. rewrite <- E.
        apply (list_elem_of_fmap_2 path_of _ _ Hin').
    + rewrite IH, row_write_error, row_build_time, row_written_at by done.
      destruct (write_error w (pdf_path self prefix i)) eqn:Ew; [| done].
      destruct (write_error w (pdf_path self prefix ir.1)); [done |].
      apply lookup_insert_ne. intros E. apply Hfresh. rewrite E.
      apply (list_elem_of_fmap_2 path_of _ _ Hin).
Qed.

End rows.

(** ** Reading the sheet *)

Section reading.
Context (self : ExcelToPdfConverter) (sheet_name : option string).
Implicit Types (w : world) (df : pd.DataFrame).

Lemma read_excel_data_unfold w :
  read_excel_data self sheet_name w
  = match pd_read_excel (excel_file_path self) (sheet_asked sheet_name) w with
    | inr raw =>
        (Some (pd.fillna_empty raw),
         exec (print ("Successfully read "
                      +:+ Py.str_int (Z.of_nat (pd.len (pd.fillna_empty raw)))
                      +:+ " rows and "
                      +:+ Py.str_int (Z.of_nat (length (pd.columns (pd.fillna_empty raw))))
                      +:+ " columns from Excel file")) w)
    | inl e => (None, exec (print ("Error reading Excel file: " +:+ Py.str_exn e)) w)
    end.
Proof.
  unfold read_excel_data, try, mbind, M_bind.
  by destruct (pd_read_excel _ _ w).
Qed.

(** A frame is returned exactly when [pandas] reads the sheet asked for,
    and it is that sheet after [fillna('')]. *)
Lemma read_excel_data_Some w df :
  eval (read_excel_data self sheet_name) w = Some df ↔
  ∃ raw, pd_read_excel (excel_file_path self) (sheet_asked sheet_name) w = inr raw
         ∧ df = pd.fillna_empty raw.
Proof.
  unfold eval. rewrite read_excel_data_unfold.
  destruct (pd_read_excel _ _ w) as [e|raw]; simpl; split.
  - done.
  - by intros (raw & ? & _).
  - intros [= <-]. by exists raw.
  - intros (raw' & [= <-] & ->). done.
Qed.

Lemma read_excel_data_None w :
  eval (read_excel_data self sheet_name) w = None ↔
  ∃ e, pd_read_excel (excel_file_path self) (sheet_asked sheet_name) w = inl e.
Proof.
  unfold eval. rewrite read_excel_data_unfold.
  destruct (pd_read_excel _ _ w) as [e|raw]; simpl; split.
  - by exists e.
  - done.
  - done.
  - by intros (e & ?).
Qed.

Lemma read_excel_data_files w :
  files (exec (read_excel_data self sheet_name) w) = files w.
Proof.
  unfold exec at 1. rewrite read_excel_data_unfold.
  by destruct (pd_read_excel _ _ w).
Qed.

Lemma read_excel_data_dirs w :
  dirs (exec (read_excel_data self sheet_name) w) = dirs w.
Proof.
  unfold exec at 1. rewrite read_excel_data_unfold.
  by destruct (pd_read_excel _ _ w).
Qed.

Lemma read_excel_data_write_error w :
  write_error (exec (read_excel_data self sheet_name) w) = write_error w.
Proof.
  unfold exec at 1. rewrite read_excel_data_unfold.
  by destruct (pd_read_excel _ _ w).
Qed.

Lemma read_excel_data_build_time w :
  build_time (exec (read_excel_data self sheet_name) w) = build_time w.
Proof.
  unfold exec at 1. rewrite read_excel_data_unfold.
  by destruct (pd_read_excel _ _ w).
Qed.

Lemma read_excel_data_written_at w :
  written_at (exec (read_excel_data self sheet_name) w) = written_at w.
Proof.
  unfold exec at 1. rewrite read_excel_data_unfold.
  by destruct (pd_read_excel _ _ w).
Qed.

(** Exactly one line is printed. *)
Lemma read_excel_data_stdout w :
  ∃ line, stdout (exec (read_excel_data self sheet_name) w) = stdout w ++ [line].
Proof.
  unfold exec at 1. rewrite read_excel_data_unfold.
  destruct (pd_read_excel _ _ w); by eexists.
Qed.

End reading.

(** Reading a workbook depends on the file at the path only. *)
Lemma pd_read_excel_agree (path : string) (sel : pd.sheet_sel) (w1 w2 : world)
    (raw : pd.DataFrame) :
  files w1 !! path = files w2 !! path →
  pd_read_excel path sel w1 = inr raw → pd_read_excel path sel w2 = inr raw.
Proof.
  unfold pd_read_excel, pd_ExcelFile. intros <-.
  destruct (files w1 !! path) as [f|]; [done |].
  by destruct (bool_decide _).
Qed.

(** ** Frames *)

Lemma fillna_empty_len (df : pd.DataFrame) : pd.len (pd.fillna_empty df) = pd.len df.
Proof. unfold pd.len. simpl. apply length_map. Qed.

Lemma iterrows_length (df : pd.DataFrame) : length (pd.iterrows df) = pd.len df.
Proof. unfold pd.iterrows. apply length_imap. Qed.

Lemma iterrows_lookup (df : pd.DataFrame) (k : nat) :
  pd.iterrows df !! k
  = (fun row => (Z.of_nat k, zip (pd.columns df) row)) <$> pd.values df !! k.
Proof. unfold pd.iterrows. apply list_lookup_imap. Qed.

Lemma iterrows_index (df : pd.DataFrame) :
  map fst (pd.iterrows df) = map Z.of_nat (seq 0 (pd.len df)).
Proof.
  apply list_eq. intros k.
  rewrite !list_lookup_fmap, iterrows_lookup.
  destruct (pd.values df !! k) as [row|] eqn:E; simpl.
  - rewrite lookup_seq_lt; [done |]. by eapply lookup_lt_Some.
  - rewrite lookup_seq_ge; [done |]. by apply lookup_ge_None.
Qed.

Lemma iterrows_paths (self : ExcelToPdfConverter) (prefix : string) (df : pd.DataFrame) :
  map (fun ir : Z * pd.Series => pdf_path self prefix ir.1) (pd.iterrows df)
  = record_paths self prefix (pd.len df).
Proof.
  unfold record_paths.
  rewrite <- (map_map Z.of_nat (pdf_path self prefix)), <- iterrows_index.
  by rewrite map_map.
Qed.

Lemma record_paths_length (self : ExcelToPdfConverter) (prefix : string) (n : nat) :
  length (record_paths self prefix n) = n.
Proof. unfold record_paths. by rewrite length_map, length_seq. Qed.

Lemma record_paths_lookup (self : ExcelToPdfConverter) (prefix : string) (n k : nat) :
  (k < n)%nat → record_paths self prefix n !! k = Some (pdf_path self prefix (Z.of_nat k)).
Proof.
  intros Hk. unfold record_paths.
  by rewrite list_lookup_fmap, lookup_seq_lt.
Qed.

Lemma record_paths_elem_of (self : ExcelToPdfConverter) (prefix : string) (n : nat)
    (p : string) :
  p ∈ record_paths self prefix n ↔
  ∃ k : nat, (k < n)%nat ∧ p = pdf_path self prefix (Z.of_nat k).
Proof.
  unfold record_paths. rewrite list_elem_of_fmap. split.
  - intros (k & -> & Hk). exists k. split; [| done].
    apply elem_of_seq in Hk. lia.
  - intros (k & Hk & ->). exists k. split; [done |].
    apply elem_of_seq. lia.
Qed.

Lemma record_paths_NoDup (self : ExcelToPdfConverter) (prefix : string) (n : nat) :
  NoDup (record_paths self prefix n).
Proof.
  unfold record_paths. apply NoDup_fmap_2_strong; [| apply NoDup_seq].
  intros i j _ _ E. apply pdf_path_inj in E; lia.
Qed.

(** ** The whole conversion *)

Section converting.
Context (self : ExcelToPdfConverter) (sheet_name filename_prefix : option string).
Implicit Types (w : world) (df : pd.DataFrame).

Local Abbreviation prefix := (default default_filename_prefix filename_prefix).
Local Abbreviation convert := (convert_all_rows self sheet_name filename_prefix).
Local Abbreviation processing df :=
  ("Processing " +:+ Py.str_int (Z.of_nat (pd.len df)) +:+ " rows...").
Local Abbreviation complete df :=
  ("Conversion complete! " +:+ Py.str_int (Z.of_nat (pd.len df))
   +:+ " PDFs created in '" +:+ output_folder self +:+ "' folder").

Lemma convert_all_rows_unread w :
  eval (read_excel_data self sheet_name) w = None →
  exec convert w = exec (read_excel_data self sheet_name) w.
Proof.
  unfold eval, exec, convert_all_rows, mbind, M_bind.
  destruct (read_excel_data self sheet_name w) as [o w1]. simpl. by intros ->.
Qed.

Lemma convert_all_rows_read w df :
  eval (read_excel_data self sheet_name) w = Some df →
  exec convert w
  = exec (print (complete df))
      (exec (for_each (pd.iterrows df)
               (fun '(index, row) => build_pdf self row index (Some prefix)))
         (exec (print (processing df)) (exec (read_excel_data self sheet_name) w))).
Proof.
  unfold eval, exec, convert_all_rows, mbind, M_bind.
  destruct (read_excel_data self sheet_name w) as [o w1]. simpl. intros ->.
  by destruct (for_each _ _ _).
Qed.

Lemma convert_all_rows_eval w : eval convert w = Py.PyNone.
Proof.
  unfold eval, convert_all_rows, mbind, M_bind.
  destruct (read_excel_data self sheet_name w) as [[df|] w1]; [| done].
  simpl. by destruct (for_each _ _ _).
Qed.

Lemma convert_all_rows_write_error w : write_error (exec convert w) = write_error w.
Proof.
  destruct (eval (read_excel_data self sheet_name) w) as [df|] eqn:E.
  - rewrite (convert_all_rows_read w df) by done.
    by rewrite print_write_error, loop_write_error, print_write_error,
      read_excel_data_write_error.
  - rewrite convert_all_rows_unread by done. apply read_excel_data_write_error.
Qed.

Lemma convert_all_rows_dirs w : dirs (exec convert w) = dirs w.
Proof.
  destruct (eval (read_excel_data self sheet_name) w) as [df|] eqn:E.
  - rewrite (convert_all_rows_read w df) by done.
    by rewrite print_dirs, loop_dirs, print_dirs, read_excel_data_dirs.
  - rewrite convert_all_rows_unread by done. apply read_excel_data_dirs.
Qed.

(** What is printed when the sheet is read: the reader's line, the number
    of rows, one line per row in row order, the closing line. *)
Lemma convert_all_rows_stdout w df :
  eval (read_excel_data self sheet_name) w = Some df →
  stdout (exec convert w)
  = stdout (exec (read_excel_data self sheet_name) w)
    ++ [processing df]
    ++ map (fun k : nat => row_line self prefix w (Z.of_nat k)) (seq 0 (pd.len df))
    ++ [complete df].
Proof.
  intros E. rewrite (convert_all_rows_read w df) by done.
  rewrite print_stdout, loop_stdout, print_stdout, <- !app_assoc. do 2 f_equal.
  f_equal. rewrite <- (map_map Z.of_nat), <- iterrows_index, map_map.
  apply map_ext. intros ir. apply row_line_write_error.
  by rewrite print_write_error, read_excel_data_write_error.
Qed.

Lemma convert_all_rows_files_other w df (p : string) :
  eval (read_excel_data self sheet_name) w = Some df →
  p ∉ record_paths self prefix (pd.len df) →
  files (exec convert w) !! p = files w !! p.
Proof.
  intros E Hp. rewrite (convert_all_rows_read w df) by done.
  rewrite print_files, loop_files_other;
    [by rewrite print_files, read_excel_data_files |].
  intros ir Hin <-. apply Hp. rewrite <- iterrows_paths.
  apply (list_elem_of_fmap_2 (fun ir : Z * pd.Series => pdf_path self prefix ir.1) _ _ Hin).
Qed.

Lemma convert_all_rows_files_row w df (k : nat) row :
  eval (read_excel_data self sheet_name) w = Some df →
  pd.iterrows df !! k = Some (Z.of_nat k, row) →
  files (exec convert w) !! pdf_path self prefix (Z.of_nat k)
  = match write_error w (pdf_path self prefix (Z.of_nat k)) with
    | None => Some (Pdf (document_of row (Z.of_nat k)))
    | Some _ => files w !! pdf_path self prefix (Z.of_nat k)
    end.
Proof.
  intros E Hk. rewrite (convert_all_rows_read w df) by done.
  rewrite print_files, (loop_files_row _ _ _ _ _ row).
  - by rewrite print_write_error, read_excel_data_write_error, print_files,
      read_excel_data_files.
  - rewrite iterrows_paths. apply record_paths_NoDup.
  - by eapply list_elem_of_lookup_2.
Qed.

(** The file of a row carries the time of its build. *)
Lemma convert_all_rows_written_at_row w df (k : nat) row :
  eval (read_excel_data self sheet_name) w = Some df →
  pd.iterrows df !! k = Some (Z.of_nat k, row) →
  written_at (exec convert w) !! pdf_path self prefix (Z.of_nat k)
  = match write_error w (pdf_path self prefix (Z.of_nat k)) with
    | None => Some (build_time w (pdf_path self prefix (Z.of_nat k)))
    | Some _ => written_at w !! pdf_path self prefix (Z.of_nat k)
    end.
Proof.
  intros E Hk. rewrite (convert_all_rows_read w df) by done.
  rewrite print_written_at, (loop_written_at_row _ _ _ _ _ row).
  - by rewrite print_write_error, read_excel_data_write_error, print_build_time,
      read_excel_data_build_time, print_written_at, read_excel_data_written_at.
  - rewrite iterrows_paths. apply record_paths_NoDup.
  - by eapply list_elem_of_lookup_2.
Qed.

Lemma convert_all_rows_written_at_other w df (p : string) :
  eval (read_excel_data self sheet_name) w = Some df →
  p ∉ record_paths self prefix (pd.len df) →
  written_at (exec convert w) !! p = written_at w !! p.
Proof.
  intros E Hp. rewrite (convert_all_rows_read w df) by done.
  rewrite print_written_at, loop_written_at_other;
    [by rewrite print_written_at, read_excel_data_written_at |].
  intros ir Hin <-. apply Hp. rewrite <- iterrows_paths.
  apply (list_elem_of_fmap_2 (fun ir : Z * pd.Series => pdf_path self prefix ir.1) _ _ Hin).
Qed.

Lemma convert_all_rows_written_at_unread w :
  eval (read_excel_data self sheet_name) w = None →
  written_at (exec convert w) = written_at w.
Proof.
  intros E. rewrite convert_all_rows_unread by done.
  apply read_excel_data_written_at.
Qed.

(** Nothing is written when the sheet cannot be read. *)
Lemma convert_all_rows_files_unread w :
  eval (read_excel_data self sheet_name) w = None →
  files (exec convert w) = files w.
Proof.
  intros E. rewrite convert_all_rows_unread by done.
  apply read_excel_data_files.
Qed.

(** Every row of the frame has its place in [iterrows]. *)
Lemma iterrows_row df (k : nat) :
  (k < pd.len df)%nat → ∃ row, pd.iterrows df !! k = Some (Z.of_nat k, row).
Proof.
  intros Hk. rewrite iterrows_lookup.
  destruct (lookup_lt_is_Some_2 (pd.values df) k Hk) as [cells ->]. by eexists.
Qed.

(** The files a conversion adds to a folder that held none of them: the
    records whose write did not raise. *)
Lemma new_files_spec w df (p : string) :
  eval (read_excel_data self sheet_name) w = Some df →
  Forall (fun p => files w !! p = None) (record_paths self prefix (pd.len df)) →
  p ∈ new_files w (exec convert w) ↔
  p ∈ record_paths self prefix (pd.len df) ∧ write_error w p = None.
Proof.
  intros E Hempty. rewrite Forall_forall in Hempty.
  unfold new_files. rewrite elem_of_difference, !elem_of_dom.
  destruct (decide (p ∈ record_paths self prefix (pd.len df))) as [Hin | Hout].
  - pose proof (Hempty p Hin) as Hnone.
    apply record_paths_elem_of in Hin as Hk. destruct Hk as (k & Hk & ->).
    destruct (iterrows_row df k Hk) as [row Hrow].
    rewrite (convert_all_rows_files_row w df k row) by done.
    rewrite Hnone. destruct (write_error w _).
    + split; [intros [[? [=]] _] | intros [_ [=]]].
    + split; [done |]. intros _. split; [by eexists | by intros [? [=]]].
  - rewrite (convert_all_rows_files_other w df) by done.
    split; [intros [? ?]; done | intros [? _]; done].
Qed.

End converting.

(** ** The table of a record *)

Lemma table_data_of_map (row_data : pd.Series) :
  table_data_of row_data
  = map (fun item => [pd.str_label item.1; value_str item.2]) row_data.
Proof.
  unfold table_data_of, pd.items.
  assert (H : ∀ acc : list (list string),
             foldl (fun table_data '(column_name, value) =>
                      table_data ++ [[pd.str_label column_name; value_str value]])
                   acc row_data
             = acc ++ map (fun item => [pd.str_label item.1; value_str item.2]) row_data).
  { induction row_data as [|[c v] l IH]; intros acc; simpl.
    - by rewrite app_nil_r.
    - by rewrite IH, <- app_assoc. }
  apply (H []).
Qed.

Lemma value_str_isna (v : pd.cell) : pd.isna v = true → value_str v = "".
Proof. unfold value_str. by intros ->. Qed.

Lemma fillna_empty_lookup (raw : pd.DataFrame) (i : nat) :
  pd.values (pd.fillna_empty raw) !! i
  = map pd.fillna_cell <$> pd.values raw !! i.
Proof. simpl. apply list_lookup_fmap. Qed.

(** ** A call of [create_pdf_from_row] *)

(** The table of a row has a row for each item, so [Table] raises for the
    row without items only. *)
Lemma Table_error_row (row_data : pd.Series) :
  rl.Table_error (table_data_of row_data)
  = match row_data with
    | [] => Some (Py.ValueError "Table must have at least a row and column")
    | _ :: _ => None
    end.
Proof.
  rewrite table_data_of_map. by destruct row_data as [|[c v] l].
Qed.

(** For a row with an item the call is [build_pdf], and returns what it
    returns. *)
Lemma create_pdf_from_row_build (self : ExcelToPdfConverter) (row_data : pd.Series)
    (row_index : Z) (filename_prefix : option string) (w : world) :
  row_data ≠ [] →
  create_pdf_from_row self row_data row_index filename_prefix w
  = (inr (eval (build_pdf self row_data row_index filename_prefix) w),
     exec (build_pdf self row_data row_index filename_prefix) w).
Proof.
  intros Hrow. unfold create_pdf_from_row, eval, exec. rewrite Table_error_row.
  destruct row_data; [done |]. by destruct (build_pdf _ _ _ _ w).
Qed.

(** * The claims *)

(** Settles a property of each of the paths of a concrete frame's records
    by running through them. *)
Ltac run_through k Hk :=
  first [ exfalso; lia
        | destruct k as [|k]; [vm_compute; reflexivity | run_through k Hk] ].

Ltac each_record_path :=
  apply Forall_forall;
  let k := fresh "k" in
  let Hk := fresh "Hk" in
  intros ? [k [Hk ->]]%record_paths_elem_of;
  vm_compute in Hk; run_through k Hk.

(** C1. When the selected sheet is read as a frame of N rows and no write
    raises, [convert_all_rows] writes N files, one per row and no two at
    the same path: row [k] (from 0) goes to [{prefix}_{k+1:03d}.pdf] in the
    output folder, the number printed in at least three digits (exactly
    three up to 999) that read back as [k+1], so the names run from 001 to
    N without a gap or a repeat; nothing else is written, so a folder that
    held none of these files has exactly N new ones; a prefix left out is
    ["row"]. *)
Theorem convert_all_rows_sequential_files
    (self : ExcelToPdfConverter) (sheet_name filename_prefix : option string)
    (w : world) (df : pd.DataFrame) :
  eval (read_excel_data self sheet_name) w = Some df →
  Forall (fun p => write_error w p = None)
    (record_paths self (default default_filename_prefix filename_prefix) (pd.len df)) →
  length (record_paths self (default default_filename_prefix filename_prefix) (pd.len df))
  = pd.len df
  ∧ NoDup (record_paths self (default default_filename_prefix filename_prefix) (pd.len df))
  ∧ (∀ k : nat, (k < pd.len df)%nat →
       record_paths self (default default_filename_prefix filename_prefix) (pd.len df) !! k
       = Some (os_path.join (output_folder self)
                 (default default_filename_prefix filename_prefix +:+ "_"
                  +:+ Py.format_03d (Z.of_nat k + 1) +:+ ".pdf"))
       ∧ Py.int_of_digits (Py.format_03d (Z.of_nat k + 1)) = Some (Z.of_nat k + 1)
       ∧ (3 ≤ String.length (Py.format_03d (Z.of_nat k + 1)))%nat
       ∧ (Z.of_nat k + 1 < 1000 → String.length (Py.format_03d (Z.of_nat k + 1)) = 3%nat)
       ∧ ∃ row, pd.iterrows df !! k = Some (Z.of_nat k, row)
                ∧ files (exec (convert_all_rows self sheet_name filename_prefix) w)
                    !! pdf_path self (default default_filename_prefix filename_prefix)
                         (Z.of_nat k)
                  = Some (Pdf (document_of row (Z.of_nat k))))
  ∧ (∀ p, p ∉ record_paths self (default default_filename_prefix filename_prefix) (pd.len df) →
       files (exec (convert_all_rows self sheet_name filename_prefix) w) !! p = files w !! p)
  ∧ (Forall (fun p => files w !! p = None)
       (record_paths self (default default_filename_prefix filename_prefix) (pd.len df)) →
     new_files w (exec (convert_all_rows self sheet_name filename_prefix) w)
     = list_to_set
         (record_paths self (default default_filename_prefix filename_prefix) (pd.len df))
     ∧ size (new_files w (exec (convert_all_rows self sheet_name filename_prefix) w))
       = pd.len df)
  ∧ convert_all_rows self sheet_name None w = convert_all_rows self sheet_name (Some "row") w.
Proof.
  intros E Hok.
  split; [apply record_paths_length |].
  split; [apply record_paths_NoDup |]. split.
  { intros k Hk. split; [by apply record_paths_lookup |].
    split; [apply format_03d_digits; lia |].
    split; [apply format_03d_width; lia |].
    split; [intros Hlt; apply format_03d_three; lia |].
    destruct (iterrows_row df k Hk) as [row Hrow]. exists row. split; [done |].
    rewrite (convert_all_rows_files_row self sheet_name filename_prefix w df k row) by done.
    rewrite Forall_forall in Hok. rewrite Hok; [done |].
    apply record_paths_elem_of. by exists k. }
  split.
  { intros p Hp.
    by apply (convert_all_rows_files_other self sheet_name filename_prefix w df). }
  split; [| done].
  intros Hempty.
  assert (Hnew : new_files w (exec (convert_all_rows self sheet_name filename_prefix) w)
                 = list_to_set
                     (record_paths self (default default_filename_prefix filename_prefix)
                        (pd.len df))).
  { apply set_eq. intros p.
    rewrite (new_files_spec self sheet_name filename_prefix w df) by done.
    rewrite elem_of_list_to_set. rewrite Forall_forall in Hok.
    split; [by intros [? _] | intros Hin; split; [done | by apply Hok]]. }
  split; [exact Hnew |].
  rewrite Hnew, size_list_to_set by apply record_paths_NoDup.
  apply record_paths_length.
Qed.

Lemma convert_all_rows_sequential_files_witness :
  record_paths office_converter "emp" 4
  = ["out/emp_001.pdf"; "out/emp_002.pdf"; "out/emp_003.pdf"; "out/emp_004.pdf"]
  ∧ new_files (office_world no_write_error)
      (exec (convert_all_rows office_converter None (Some "emp")) (office_world no_write_error))
    = list_to_set ["out/emp_001.pdf"; "out/emp_002.pdf"; "out/emp_003.pdf"; "out/emp_004.pdf"]
  ∧ size (new_files (office_world no_write_error)
            (exec (convert_all_rows office_converter None (Some "emp"))
               (office_world no_write_error))) = 4%nat.
Proof.
  destruct (convert_all_rows_sequential_files office_converter None (Some "emp")
              (office_world no_write_error) (pd.fillna_empty staff))
    as (_ & _ & _ & _ & Hnew & _).
  - reflexivity.
  - each_record_path.
  - split; [reflexivity |]. apply Hnew. each_record_path.
Defined.









(** C5, as the code has it: [convert_all_rows] returns nothing ([None]),
    whatever happens; when the sheet is read it prints the number of rows
    it is about to process, which is the number of rows it then attempts,
    one printed line each. *)
Theorem convert_all_rows_returns_none_reports_rows
    (self : ExcelToPdfConverter) (sheet_name filename_prefix : option string) (w : world) :
  eval (convert_all_rows self sheet_name filename_prefix) w = Py.PyNone
  ∧ ∀ df, eval (read_excel_data self sheet_name) w = Some df →
      ∃ read after,
        stdout (exec (convert_all_rows self sheet_name filename_prefix) w)
        = stdout w
          ++ [read; "Processing " +:+ Py.str_int (Z.of_nat (pd.len df)) +:+ " rows..."]
          ++ map (fun k : nat =>
                    row_line self (default default_filename_prefix filename_prefix) w
                      (Z.of_nat k))
               (seq 0 (pd.len df))
          ++ [after]
        ∧ length (pd.iterrows df) = pd.len df.
Proof.
  split; [apply convert_all_rows_eval |].
  intros df E.
  destruct (read_excel_data_stdout self sheet_name w) as [read Hread].
  eexists read, _. split; [| apply iterrows_length].
  rewrite (convert_all_rows_stdout self sheet_name filename_prefix w df E), Hread.
  rewrite <- !app_assoc. reflexivity.
Qed.

(** C5 fails as stated: of the four rows one is not written, so three
    documents are created; the call returns [None], not that count, and
    the closing line reports four. *)
Lemma convert_all_rows_count_counterexample :
  size (new_files (office_world second_fails)
          (exec (convert_all_rows office_converter None (Some "emp"))
             (office_world second_fails))) = 3%nat
  ∧ eval (convert_all_rows office_converter None (Some "emp")) (office_world second_fails)
    ≠ Py.PyInt 3
  ∧ last (stdout (exec (convert_all_rows office_converter None (Some "emp"))
                    (office_world second_fails)))
    = Some "Conversion complete! 4 PDFs created in 'out' folder".
Proof.
  split; [vm_compute; reflexivity |].
  split; [vm_compute; discriminate | vm_compute; reflexivity].
Qed.

(** C6. [list_sheets] returns the sheet names in file order and prints
    nothing when the path holds a workbook; when the path does not exist,
    names a directory or holds a file that is not a workbook it reports the
    failure: it prints the error and returns the empty list. *)
Theorem list_sheets_names_or_error (self : ExcelToPdfConverter) (w : world) :
  (∀ wb, files w !! excel_file_path self = Some (Xlsx wb) →
     eval (list_sheets self) w = map fst wb ∧ exec (list_sheets self) w = w)
  ∧ (files w !! excel_file_path self = None → excel_file_path self ∉ dirs w →
     eval (list_sheets self) w = []
     ∧ stdout (exec (list_sheets self) w)
       = stdout w ++ ["Error reading Excel file: "
                      +:+ Py.str_exn (Py.FileNotFoundError (excel_file_path self))])
  ∧ (files w !! excel_file_path self = None → excel_file_path self ∈ dirs w →
     eval (list_sheets self) w = []
     ∧ stdout (exec (list_sheets self) w)
       = stdout w ++ ["Error reading Excel file: "
                      +:+ Py.str_exn (Py.IsADirectoryError (excel_file_path self))])
  ∧ (∀ f, files w !! excel_file_path self = Some f → (∀ wb, f ≠ Xlsx wb) →
     eval (list_sheets self) w = []
     ∧ ∃ e, stdout (exec (list_sheets self) w)
            = stdout w ++ ["Error reading Excel file: " +:+ Py.str_exn e]).
Proof.
  unfold eval, exec, list_sheets, try, mbind, M_bind, pd_ExcelFile.
  split; [| split; [| split]].
  - intros wb ->. done.
  - intros -> Hdir. by rewrite bool_decide_eq_false_2.
  - intros -> Hdir. by rewrite bool_decide_eq_true_2.
  - intros f -> Hf. destruct f as [wb | doc | bytes].
    + by destruct (Hf wb).
    + split; [done |]. by eexists.
    + split; [done |]. by eexists.
Qed.

(** What is printed for a path that does not exist and for a folder. *)
Example list_sheets_errors :
  stdout (exec (list_sheets {| excel_file_path := "missing.xlsx"; output_folder := "out" |})
            (office_world no_write_error))
  = ["Error reading Excel file: [Errno 2] No such file or directory: 'missing.xlsx'"]
  ∧ stdout (exec (list_sheets {| excel_file_path := "out"; output_folder := "out" |})
              (office_world no_write_error))
    = ["Error reading Excel file: [Errno 21] Is a directory: 'out'"].
Proof. split; vm_compute; reflexivity. Qed.

(** The two-sheet scenario: both names in file order, and choosing the
    second sheet converts its two rows only. *)
Example list_sheets_two_sheets :
  eval (list_sheets office_converter) (office_world no_write_error) = ["Staff"; "Offices"]
  ∧ elements (new_files (office_world no_write_error)
                (exec (convert_all_rows office_converter (Some "Offices") None)
                   (office_world no_write_error)))
    ≡ₚ ["out/row_001.pdf"; "out/row_002.pdf"].
Proof.
  split; [reflexivity |].
  vm_compute elements. apply Permutation_swap || reflexivity.
Qed.

(** What [read_excel] raises when no file is at the path. *)
Lemma pd_read_excel_no_file (path : string) (sel : pd.sheet_sel) (w : world) :
  files w !! path = None →
  pd_read_excel path sel w
  = inl (if bool_decide (path ∈ dirs w) then Py.IsADirectoryError path
         else Py.FileNotFoundError path).
Proof.
  intros Hnone. unfold pd_read_excel, pd_ExcelFile. rewrite Hnone.
  by destruct (bool_decide _).
Qed.

(** C7. When the sheet cannot be read, and so when the path does not exist
    (or names a folder), [convert_all_rows] writes no file and creates no
    directory, prints the error of the reader and nothing else, and returns
    normally.  The error of a path that does not exist is
    [FileNotFoundError], that of a folder [IsADirectoryError]. *)
Theorem convert_all_rows_source_unreadable
    (self : ExcelToPdfConverter) (sheet_name filename_prefix : option string) (w : world) :
  files w !! excel_file_path self = None
  ∨ eval (read_excel_data self sheet_name) w = None →
  ∃ e,
    pd_read_excel (excel_file_path self) (sheet_asked sheet_name) w = inl e
    ∧ (files w !! excel_file_path self = None → excel_file_path self ∉ dirs w →
       e = Py.FileNotFoundError (excel_file_path self))
    ∧ (files w !! excel_file_path self = None → excel_file_path self ∈ dirs w →
       e = Py.IsADirectoryError (excel_file_path self))
    ∧ files (exec (convert_all_rows self sheet_name filename_prefix) w) = files w
    ∧ new_files w (exec (convert_all_rows self sheet_name filename_prefix) w) = ∅
    ∧ dirs (exec (convert_all_rows self sheet_name filename_prefix) w) = dirs w
    ∧ stdout (exec (convert_all_rows self sheet_name filename_prefix) w)
      = stdout w ++ ["Error reading Excel file: " +:+ Py.str_exn e]
    ∧ eval (convert_all_rows self sheet_name filename_prefix) w = Py.PyNone.
Proof.
  intros H.
  assert (Hfail : ∃ e, pd_read_excel (excel_file_path self) (sheet_asked sheet_name) w = inl e).
  { destruct H as [Hnone | Hread].
    - eexists. by apply pd_read_excel_no_file.
    - by apply read_excel_data_None in Hread. }
  destruct Hfail as (e & He). exists e.
  assert (Hread : eval (read_excel_data self sheet_name) w = None).
  { apply read_excel_data_None. by exists e. }
  assert (Hfiles : files (exec (convert_all_rows self sheet_name filename_prefix) w) = files w).
  { by apply convert_all_rows_files_unread. }
  split; [done |].
  split.
  { intros Hnone Hdir. rewrite pd_read_excel_no_file in He by done.
    rewrite bool_decide_eq_false_2 in He by done. congruence. }
  split.
  { intros Hnone Hdir. rewrite pd_read_excel_no_file in He by done.
    rewrite bool_decide_eq_true_2 in He by done. congruence. }
  split; [done |].
  split; [unfold new_files; rewrite Hfiles; apply difference_diag_L |].
  split; [apply convert_all_rows_dirs |].
  split; [| apply convert_all_rows_eval].
  rewrite convert_all_rows_unread by done.
  unfold exec at 1. rewrite read_excel_data_unfold, He. done.
Qed.

Lemma convert_all_rows_source_unreadable_witness :
  files (exec (convert_all_rows lost_converter None (Some "emp"))
           (office_world no_write_error))
  = files (office_world no_write_error)
  ∧ stdout (exec (convert_all_rows lost_converter None (Some "emp"))
              (office_world no_write_error))
    = ["Error reading Excel file: [Errno 2] No such file or directory: 'missing.xlsx'"].
Proof.
  destruct (convert_all_rows_source_unreadable lost_converter None (Some "emp")
              (office_world no_write_error))
    as (e & _ & Hmissing & _ & Hfiles & _ & _ & Hout & _).
  - left. reflexivity.
  - split; [exact Hfiles |].
    rewrite Hout, (Hmissing eq_refl); [reflexivity |].
    intros Hin. change ("missing.xlsx" ∈ ({[ "out" ]} : gset string)) in Hin.
    apply elem_of_singleton in Hin. discriminate Hin.
Defined.

(** C8, as the code has it.  Two runs of [convert_all_rows] with the same
    converter, sheet and prefix, on the same workbook and with the same
    write failures, each into a folder that holds none of the record files,
    return the same, print the same lines, create files of the same names,
    as many, and with the same documents in them: the title and table
    handed to [doc.build].  What differs is the time each run writes into
    its files, which is the time of its own builds. *)
Theorem convert_all_rows_rerun_same_output
    (self : ExcelToPdfConverter) (sheet_name filename_prefix : option string)
    (w1 w2 : world) (df : pd.DataFrame) :
  files w1 !! excel_file_path self = files w2 !! excel_file_path self →
  (∀ p, write_error w1 p = write_error w2 p) →
  eval (read_excel_data self sheet_name) w1 = Some df →
  Forall (fun p => files w1 !! p = None)
    (record_paths self (default default_filename_prefix filename_prefix) (pd.len df)) →
  Forall (fun p => files w2 !! p = None)
    (record_paths self (default default_filename_prefix filename_prefix) (pd.len df)) →
  eval (convert_all_rows self sheet_name filename_prefix) w1
  = eval (convert_all_rows self sheet_name filename_prefix) w2
  ∧ new_files w1 (exec (convert_all_rows self sheet_name filename_prefix) w1)
    = new_files w2 (exec (convert_all_rows self sheet_name filename_prefix) w2)
  ∧ size (new_files w1 (exec (convert_all_rows self sheet_name filename_prefix) w1))
    = size (new_files w2 (exec (convert_all_rows self sheet_name filename_prefix) w2))
  ∧ (∀ p, p ∈ record_paths self (default default_filename_prefix filename_prefix) (pd.len df) →
       document_at (exec (convert_all_rows self sheet_name filename_prefix) w1) p
       = document_at (exec (convert_all_rows self sheet_name filename_prefix) w2) p)
  ∧ (∀ (k : nat) row,
       pd.iterrows df !! k = Some (Z.of_nat k, row) →
       write_error w1
         (pdf_path self (default default_filename_prefix filename_prefix) (Z.of_nat k))
       = None →
       document_at (exec (convert_all_rows self sheet_name filename_prefix) w1)
         (pdf_path self (default default_filename_prefix filename_prefix) (Z.of_nat k))
       = Some (document_of row (Z.of_nat k))
       ∧ document_at (exec (convert_all_rows self sheet_name filename_prefix) w2)
           (pdf_path self (default default_filename_prefix filename_prefix) (Z.of_nat k))
         = Some (document_of row (Z.of_nat k))
       ∧ written_at (exec (convert_all_rows self sheet_name filename_prefix) w1)
           !! pdf_path self (default default_filename_prefix filename_prefix) (Z.of_nat k)
         = Some (build_time w1
                   (pdf_path self (default default_filename_prefix filename_prefix)
                      (Z.of_nat k)))
       ∧ written_at (exec (convert_all_rows self sheet_name filename_prefix) w2)
           !! pdf_path self (default default_filename_prefix filename_prefix) (Z.of_nat k)
         = Some (build_time w2
                   (pdf_path self (default default_filename_prefix filename_prefix)
                      (Z.of_nat k))))
  ∧ drop (length (stdout w1))
      (stdout (exec (convert_all_rows self sheet_name filename_prefix) w1))
    = drop (length (stdout w2))
        (stdout (exec (convert_all_rows self sheet_name filename_prefix) w2)).
Proof.
  intros Hbook Herr E1 Hempty1 Hempty2.
  pose proof E1 as Hraw1. apply read_excel_data_Some in Hraw1 as (raw & Hraw1 & ->).
  pose proof (pd_read_excel_agree _ _ w1 w2 raw Hbook Hraw1) as Hraw2.
  assert (E2 : eval (read_excel_data self sheet_name) w2 = Some (pd.fillna_empty raw)).
  { apply read_excel_data_Some. by exists raw. }
  assert (Hnew : new_files w1 (exec (convert_all_rows self sheet_name filename_prefix) w1)
                 = new_files w2 (exec (convert_all_rows self sheet_name filename_prefix) w2)).
  { apply set_eq. intros p.
    rewrite (new_files_spec self sheet_name filename_prefix w1 (pd.fillna_empty raw)) by done.
    rewrite (new_files_spec self sheet_name filename_prefix w2 (pd.fillna_empty raw)) by done.
    by rewrite Herr. }
  split; [by rewrite !convert_all_rows_eval |].
  split; [exact Hnew |]. split; [by rewrite Hnew |]. split; [| split].
  - intros p Hp. rewrite Forall_forall in Hempty1, Hempty2.
    pose proof (Hempty1 p Hp) as H1. pose proof (Hempty2 p Hp) as H2.
    apply record_paths_elem_of in Hp as (k & Hk & ->).
    destruct (iterrows_row (pd.fillna_empty raw) k Hk) as [row Hrow].
    unfold document_at.
    rewrite (convert_all_rows_files_row self sheet_name filename_prefix w1 _ k row) by done.
    rewrite (convert_all_rows_files_row self sheet_name filename_prefix w2 _ k row) by done.
    rewrite Herr, H1, H2. done.
  - intros k row Hrow Hok1.
    assert (Hok2 : write_error w2
                     (pdf_path self (default default_filename_prefix filename_prefix)
                        (Z.of_nat k)) = None) by (by rewrite <- Herr).
    unfold document_at.
    rewrite (convert_all_rows_files_row self sheet_name filename_prefix w1 _ k row) by done.
    rewrite (convert_all_rows_files_row self sheet_name filename_prefix w2 _ k row) by done.
    rewrite (convert_all_rows_written_at_row self sheet_name filename_prefix w1 _ k row)
      by done.
    rewrite (convert_all_rows_written_at_row self sheet_name filename_prefix w2 _ k row)
      by done.
    by rewrite Hok1, Hok2.
  - rewrite (convert_all_rows_stdout self sheet_name filename_prefix w1 _ E1).
    rewrite (convert_all_rows_stdout self sheet_name filename_prefix w2 _ E2).
    unfold exec at 1 2. rewrite !read_excel_data_unfold, Hraw1, Hraw2.
    cbn [snd]. rewrite !print_stdout, <- !app_assoc, !drop_app_length.
    do 2 f_equal. f_equal. apply map_ext. intros k. unfold row_line.
    by rewrite Herr.
Qed.

Lemma convert_all_rows_rerun_same_output_witness :
  new_files (office_world second_fails)
    (exec (convert_all_rows office_converter None (Some "emp")) (office_world second_fails))
  = new_files (empty_folder_world second_fails (noon + 60))
      (exec (convert_all_rows office_converter None (Some "emp"))
         (empty_folder_world second_fails (noon + 60)))
  ∧ document_at (exec (convert_all_rows office_converter None (Some "emp"))
                   (office_world second_fails)) "out/emp_004.pdf"
    = document_at (exec (convert_all_rows office_converter None (Some "emp"))
                     (empty_folder_world second_fails (noon + 60))) "out/emp_004.pdf"
  ∧ written_at (exec (convert_all_rows office_converter None (Some "emp"))
                  (office_world second_fails)) !! "out/emp_004.pdf"
    = Some noon
  ∧ written_at (exec (convert_all_rows office_converter None (Some "emp"))
                  (empty_folder_world second_fails (noon + 60))) !! "out/emp_004.pdf"
    = Some (noon + 60).
Proof.
  destruct (convert_all_rows_rerun_same_output office_converter None (Some "emp")
              (office_world second_fails) (empty_folder_world second_fails (noon + 60))
              (pd.fillna_empty staff))
    as (_ & Hnew & _ & Hcontent & Hrows & _).
  - reflexivity.
  - reflexivity.
  - reflexivity.
  - each_record_path.
  - each_record_path.
  - split; [exact Hnew |]. split.
    + apply Hcontent, record_paths_elem_of. exists 3%nat.
      split; [vm_compute; lia | reflexivity].
    + destruct (Hrows 3%nat
                  [(pd.Name "Name", pd.Text "Sarah Wilson"); (pd.Name "Age", pd.Num "29.0")])
        as (_ & _ & Ht1 & Ht2); [reflexivity | reflexivity |].
      split; [exact Ht1 | exact Ht2].
Defined.

(** C8 fails as stated: two runs on the same workbook, each into an empty
    folder, the second a minute after the first, write the same document
    under the same name, and files that differ, each with the time of its
    own build in it. *)
Lemma convert_all_rows_rerun_content_counterexample :
  document_at (exec (convert_all_rows office_converter None (Some "emp"))
                 (empty_folder_world no_write_error noon)) "out/emp_001.pdf"
  = document_at (exec (convert_all_rows office_converter None (Some "emp"))
                   (empty_folder_world no_write_error (noon + 60))) "out/emp_001.pdf"
  ∧ written_at (exec (convert_all_rows office_converter None (Some "emp"))
                  (empty_folder_world no_write_error noon)) !! "out/emp_001.pdf"
    = Some noon
  ∧ written_at (exec (convert_all_rows office_converter None (Some "emp"))
                  (empty_folder_world no_write_error (noon + 60))) !! "out/emp_001.pdf"
    = Some (noon + 60)
  ∧ on_disk (exec (convert_all_rows office_converter None (Some "emp"))
               (empty_folder_world no_write_error noon)) "out/emp_001.pdf"
    ≠ on_disk (exec (convert_all_rows office_converter None (Some "emp"))
                 (empty_folder_world no_write_error (noon + 60))) "out/emp_001.pdf".
Proof.
  split; [vm_compute; reflexivity |].
  split; [vm_compute; reflexivity |].
  split; [vm_compute; reflexivity |].
  vm_compute. discriminate.
Qed.

(** C9. [convert_all_rows] changes the file system only at the paths of
    its own records: any path either holds what it held before, or is
    [{prefix}_{k+1:03d}.pdf] in the output folder for a row [k] of the sheet
    read and now holds that row's document.  No file is deleted and no
    directory is touched; creating the converter touches no file either. *)
Theorem convert_all_rows_frame
    (self : ExcelToPdfConverter) (sheet_name filename_prefix : option string)
    (w : world) (p : string) :
  (files (exec (convert_all_rows self sheet_name filename_prefix) w) !! p = files w !! p
   ∨ ∃ (k : nat) df row,
       eval (read_excel_data self sheet_name) w = Some df
       ∧ pd.iterrows df !! k = Some (Z.of_nat k, row)
       ∧ p = os_path.join (output_folder self)
               (default default_filename_prefix filename_prefix +:+ "_"
                +:+ Py.format_03d (Z.of_nat k + 1) +:+ ".pdf")
       ∧ files (exec (convert_all_rows self sheet_name filename_prefix) w) !! p
         = Some (Pdf (document_of row (Z.of_nat k))))
  ∧ (is_Some (files w !! p) →
     is_Some (files (exec (convert_all_rows self sheet_name filename_prefix) w) !! p))
  ∧ dirs (exec (convert_all_rows self sheet_name filename_prefix) w) = dirs w
  ∧ ∀ path folder, files (exec (__init__ path folder) w) = files w.
Proof.
  assert (Hcases :
    files (exec (convert_all_rows self sheet_name filename_prefix) w) !! p = files w !! p
    ∨ ∃ (k : nat) df row,
        eval (read_excel_data self sheet_name) w = Some df
        ∧ pd.iterrows df !! k = Some (Z.of_nat k, row)
        ∧ p = os_path.join (output_folder self)
                (default default_filename_prefix filename_prefix +:+ "_"
                 +:+ Py.format_03d (Z.of_nat k + 1) +:+ ".pdf")
        ∧ files (exec (convert_all_rows self sheet_name filename_prefix) w) !! p
          = Some (Pdf (document_of row (Z.of_nat k)))).
  { destruct (eval (read_excel_data self sheet_name) w) as [df|] eqn:E.
    - destruct (decide (p ∈ record_paths self
                          (default default_filename_prefix filename_prefix) (pd.len df)))
        as [Hin | Hout].
      + apply record_paths_elem_of in Hin as (k & Hk & ->).
        destruct (iterrows_row df k Hk) as [row Hrow].
        pose proof (convert_all_rows_files_row self sheet_name filename_prefix w df k row
                      E Hrow) as Hfile.
        destruct (write_error w _); [by left |].
        right. by exists k, df, row.
      + left. by apply (convert_all_rows_files_other self sheet_name filename_prefix w df).
    - left. by rewrite convert_all_rows_files_unread. }
  split; [exact Hcases |]. split.
  { intros Hsome. destruct Hcases as [-> | (k & df & row & _ & _ & _ & ->)]; [done |].
    by eexists. }
  split; [apply convert_all_rows_dirs |].
  intros path folder. unfold exec, __init__, mkdir_p.
  destruct (files w !! default default_output_folder folder); [done |].
  by destruct (existsb _ _).
Qed.

(** The file that was in the folder is as it was after a conversion. *)
Example convert_all_rows_keeps_notes :
  files (exec (convert_all_rows office_converter None (Some "emp"))
           (office_world no_write_error)) !! "out/notes.txt"
  = Some (Other "keep me").
Proof. vm_compute. reflexivity. Qed.

Lemma sheet_asked_falsy (sheet_name : option string) :
  Py.truthy sheet_name = false → sheet_asked sheet_name = pd.FirstSheet.
Proof. unfold sheet_asked. destruct sheet_name; [by intros -> | done]. Qed.

(** C10. An empty sheet name is read as no sheet name: [read_excel_data]
    and [convert_all_rows] do the same with [""] as with the argument left
    out, as with any falsy sheet name: they read the first sheet of the
    workbook, and ask for no sheet by name. *)
Theorem empty_sheet_name_reads_first_sheet
    (self : ExcelToPdfConverter) (filename_prefix : option string) (w : world) :
  read_excel_data self (Some "") w = read_excel_data self None w
  ∧ convert_all_rows self (Some "") filename_prefix w
    = convert_all_rows self None filename_prefix w
  ∧ (∀ sheet_name, Py.truthy sheet_name = false →
       read_excel_data self sheet_name w = read_excel_data self None w
       ∧ convert_all_rows self sheet_name filename_prefix w
         = convert_all_rows self None filename_prefix w)
  ∧ (∀ name df rest,
       files w !! excel_file_path self = Some (Xlsx ((name, df) :: rest)) →
       eval (read_excel_data self (Some "")) w = Some (pd.fillna_empty df)).
Proof.
  assert (Hfalsy : ∀ sheet_name, Py.truthy sheet_name = false →
            read_excel_data self sheet_name w = read_excel_data self None w
            ∧ convert_all_rows self sheet_name filename_prefix w
              = convert_all_rows self None filename_prefix w).
  { intros sheet_name Hf.
    assert (Hread : read_excel_data self sheet_name = read_excel_data self None).
    { unfold read_excel_data. by rewrite (sheet_asked_falsy sheet_name Hf). }
    split; [by rewrite Hread |].
    unfold convert_all_rows. by rewrite Hread. }
  split; [by apply Hfalsy |]. split; [by apply Hfalsy |]. split; [exact Hfalsy |].
  intros name df rest Hbook. apply read_excel_data_Some. exists df. split; [| done].
  unfold pd_read_excel, pd_ExcelFile. by rewrite Hbook.
Qed.

(** A sheet named nowhere in the workbook is an error when asked for by a
    non-empty name, and the first sheet when the name is empty. *)
Example empty_sheet_name_example :
  eval (read_excel_data office_converter (Some "Payroll")) (office_world no_write_error) = None
  ∧ eval (read_excel_data office_converter (Some "")) (office_world no_write_error)
    = Some (pd.fillna_empty staff).
Proof. split; reflexivity. Qed.

(** X1. The closing line of [convert_all_rows] counts the rows read,
    written or not. *)
Theorem convert_all_rows_closing_line
    (self : ExcelToPdfConverter) (sheet_name filename_prefix : option string)
    (w : world) (df : pd.DataFrame) :
  eval (read_excel_data self sheet_name) w = Some df →
  last (stdout (exec (convert_all_rows self sheet_name filename_prefix) w))
  = Some ("Conversion complete! " +:+ Py.str_int (Z.of_nat (pd.len df))
          +:+ " PDFs created in '" +:+ output_folder self +:+ "' folder").
Proof.
  intros E. rewrite (convert_all_rows_stdout self sheet_name filename_prefix w df E).
  rewrite !app_assoc. apply last_snoc.
Qed.

Lemma convert_all_rows_closing_line_witness :
  last (stdout (exec (convert_all_rows office_converter None (Some "emp"))
                  (office_world second_fails)))
  = Some "Conversion complete! 4 PDFs created in 'out' folder".
Proof.
  apply (convert_all_rows_closing_line office_converter None (Some "emp")
           (office_world second_fails) (pd.fillna_empty staff)).
  reflexivity.
Defined.

(** Filling the missing cells keeps every row as long as the header. *)
Lemma fillna_empty_well_formed (df : pd.DataFrame) :
  pd.well_formed df = true → pd.well_formed (pd.fillna_empty df) = true.
Proof.
  unfold pd.well_formed. simpl. rewrite !forallb_forall.
  intros Hwf row [cells [<- Hin]]%in_map_iff.
  rewrite length_map. by apply Hwf.
Qed.

(** X2. In a well-formed frame every row [iterrows] yields carries the
    frame's columns, all of them and in their order, and so does the
    table rendered from it. *)
Theorem iterrows_columns (df : pd.DataFrame) (k : nat) (index : Z) (row : pd.Series) :
  pd.well_formed df = true →
  pd.iterrows df !! k = Some (index, row) →
  index = Z.of_nat k
  ∧ map fst row = pd.columns df
  ∧ map rl.field_name (table_data_of row) = map pd.str_label (pd.columns df).
Proof.
  intros Hwf Hk. rewrite iterrows_lookup in Hk.
  destruct (pd.values df !! k) as [cells|] eqn:Hcells; [| done].
  injection Hk as <- <-.
  assert (Hlen : length cells = length (pd.columns df)).
  { unfold pd.well_formed in Hwf. rewrite forallb_forall in Hwf.
    apply Nat.eqb_eq, Hwf, list_elem_of_In. by eapply list_elem_of_lookup_2. }
  assert (Hfst : map fst (zip (pd.columns df) cells) = pd.columns df).
  { apply fst_zip. lia. }
  split; [done |]. split; [exact Hfst |].
  rewrite table_data_of_map, map_map. simpl.
  rewrite <- Hfst at 2. by rewrite map_map.
Qed.

Lemma iterrows_columns_witness :
  map rl.field_name
    (table_data_of [(pd.Name "Name", pd.Text "Jane Smith"); (pd.Name "Age", pd.NA)])
  = ["Name"; "Age"].
Proof.
  apply (iterrows_columns staff 1 1
           [(pd.Name "Name", pd.Text "Jane Smith"); (pd.Name "Age", pd.NA)]).
  - reflexivity.
  - reflexivity.
Defined.

(** * Further properties of the code *)

(** ** Reading *)

(** The cells still missing after the filling are missing dates. *)
Lemma fillna_empty_missing (raw : pd.DataFrame) (cells : list pd.cell) (v : pd.cell) :
  cells ∈ pd.values (pd.fillna_empty raw) → v ∈ cells → pd.isna v = true → v = pd.NaT.
Proof.
  simpl. intros (cells0 & -> & _)%list_elem_of_fmap (v0 & -> & _)%list_elem_of_fmap.
  by destruct v0.
Qed.

(** X3. The frame [read_excel_data] returns is the sheet [pandas] read
    with nothing changed but its missing numbers and texts: the same
    columns, as many rows, each as long as it was, every cell that was
    present kept as it is, every [NaN] or [None] replaced by the empty
    string and every missing date left as it is, so that the cells of the
    frame that are still missing are missing dates; rows that all had one
    cell per column still have. *)
Theorem read_excel_data_keeps_present_cells
    (self : ExcelToPdfConverter) (sheet_name : option string) (w : world)
    (df : pd.DataFrame) :
  eval (read_excel_data self sheet_name) w = Some df →
  ∃ raw,
    pd_read_excel (excel_file_path self) (sheet_asked sheet_name) w = inr raw
    ∧ pd.columns df = pd.columns raw
    ∧ pd.len df = pd.len raw
    ∧ (∀ (i : nat) cells, pd.values raw !! i = Some cells →
         ∃ cells', pd.values df !! i = Some cells'
                   ∧ length cells' = length cells
                   ∧ ∀ (j : nat) v, cells !! j = Some v →
                       (pd.isna v = false → cells' !! j = Some v)
                       ∧ (v = pd.NA → cells' !! j = Some (pd.Text ""))
                       ∧ (v = pd.NaT → cells' !! j = Some pd.NaT))
    ∧ (∀ cells' v, cells' ∈ pd.values df → v ∈ cells' → pd.isna v = true → v = pd.NaT)
    ∧ (pd.well_formed raw = true → pd.well_formed df = true).
Proof.
  intros (raw & Hraw & ->)%read_excel_data_Some. exists raw.
  split; [done |]. split; [done |]. split; [apply fillna_empty_len |].
  split.
  { intros i cells Hi. eexists. split; [by rewrite fillna_empty_lookup, Hi |].
    split; [apply length_map |].
    intros j v Hj. rewrite list_lookup_fmap, Hj.
    split; [by destruct v | split; by intros ->]. }
  split; [apply fillna_empty_missing | apply fillna_empty_well_formed].
Qed.

Lemma read_excel_data_keeps_present_cells_witness :
  ∃ raw,
    pd_read_excel "staff.xlsx" pd.FirstSheet (office_world no_write_error) = inr raw
    ∧ pd.values raw !! 1%nat = Some [pd.Text "Jane Smith"; pd.NA]
    ∧ pd.values (pd.fillna_empty staff) !! 1%nat = Some [pd.Text "Jane Smith"; pd.Text ""].
Proof.
  destruct (read_excel_data_keeps_present_cells office_converter None
              (office_world no_write_error) (pd.fillna_empty staff))
    as (raw & Hraw & _); [reflexivity |].
  exists raw. split; [exact Hraw |].
  vm_compute in Hraw. injection Hraw as <-. split; reflexivity.
Defined.

(** The missing date of the projects is still missing in the frame. *)
Example read_excel_data_keeps_missing_date :
  eval (read_excel_data project_converter None) project_world
  = Some {| pd.columns := [pd.Name "Project"; pd.Name "Due"];
            pd.values := [ [pd.Text "Atlas"; pd.Obj "2024-03-01 00:00:00"];
                           [pd.Text "Borealis"; pd.NaT] ] |}.
Proof. reflexivity. Qed.

(** X4. Reading never writes: [read_excel_data] and [list_sheets] leave
    every file and directory as it was; the first prints one line, the
    second prints one line when it fails and none when it succeeds. *)
Theorem reading_changes_no_file
    (self : ExcelToPdfConverter) (sheet_name : option string) (w : world) :
  files (exec (read_excel_data self sheet_name) w) = files w
  ∧ dirs (exec (read_excel_data self sheet_name) w) = dirs w
  ∧ (∃ line, stdout (exec (read_excel_data self sheet_name) w) = stdout w ++ [line])
  ∧ files (exec (list_sheets self) w) = files w
  ∧ dirs (exec (list_sheets self) w) = dirs w
  ∧ (match pd_ExcelFile (excel_file_path self) w with
     | inr _ => stdout (exec (list_sheets self) w) = stdout w
     | inl e => stdout (exec (list_sheets self) w)
                = stdout w ++ ["Error reading Excel file: " +:+ Py.str_exn e]
     end).
Proof.
  split; [apply read_excel_data_files |]. split; [apply read_excel_data_dirs |].
  split; [apply read_excel_data_stdout |].
  unfold exec, list_sheets, try, mbind, M_bind.
  by destruct (pd_ExcelFile (excel_file_path self) w).
Qed.

(** ** Sheets by name *)

Lemma find_sheet_Some (name : string) (wb : list (string * pd.DataFrame)) :
  is_Some (pd.find_sheet name wb) ↔ name ∈ pd.sheet_names wb.
Proof.
  unfold pd.find_sheet, pd.sheet_names.
  induction wb as [|[n df] wb IH]; simpl.
  - split; [by intros [? [=]] | by intros ?%elem_of_nil].
  - destruct (String.eqb n name) eqn:E.
    + apply String.eqb_eq in E as ->. split; [intros _; by left | by eexists].
    + rewrite elem_of_cons, IH. apply String.eqb_neq in E.
      split; [by right | by intros [-> | ?]].
Qed.

(** X5. The sheets [list_sheets] reports are the ones that can be read by
    name: for a workbook at the path and a non-empty name,
    [read_excel_data] returns a frame exactly when the name is in the
    list, and otherwise prints that the worksheet was not found. *)
Theorem listed_sheets_are_the_readable_ones
    (self : ExcelToPdfConverter) (w : world) (wb : list (string * pd.DataFrame))
    (name : string) :
  files w !! excel_file_path self = Some (Xlsx wb) →
  Py.bool_str name = true →
  (name ∈ eval (list_sheets self) w
   ↔ is_Some (eval (read_excel_data self (Some name)) w))
  ∧ (name ∉ eval (list_sheets self) w →
     eval (read_excel_data self (Some name)) w = None
     ∧ stdout (exec (read_excel_data self (Some name)) w)
       = stdout w ++ ["Error reading Excel file: Worksheet named '" +:+ name
                      +:+ "' not found"]).
Proof.
  intros Hbook Hname.
  assert (Hlist : eval (list_sheets self) w = pd.sheet_names wb).
  { unfold eval, list_sheets, try, mbind, M_bind, pd_ExcelFile. by rewrite Hbook. }
  assert (Hasked : sheet_asked (Some name) = pd.Named name).
  { unfold sheet_asked. simpl. by rewrite Hname. }
  rewrite Hlist, <- find_sheet_Some.
  unfold eval, exec. rewrite read_excel_data_unfold, Hasked.
  unfold pd_read_excel, pd_ExcelFile. rewrite Hbook. simpl.
  destruct (pd.find_sheet name wb) as [df|]; simpl.
  - split; [split; by eexists |]. intros []. by eexists.
  - split; [split; by intros [? [=]] | done].
Qed.

Lemma listed_sheets_are_the_readable_ones_witness :
  is_Some (eval (read_excel_data office_converter (Some "Offices"))
             (office_world no_write_error))
  ∧ "Offices" ∈ eval (list_sheets office_converter) (office_world no_write_error).
Proof.
  destruct (listed_sheets_are_the_readable_ones office_converter
              (office_world no_write_error) [("Staff", staff); ("Offices", offices)]
              "Offices")
    as [Hiff _]; [reflexivity | reflexivity |].
  assert (Hin : "Offices" ∈ eval (list_sheets office_converter)
                              (office_world no_write_error)).
  { apply elem_of_cons. right. apply elem_of_cons. by left. }
  split; [by apply Hiff | exact Hin].
Defined.

(** Reading the sheet that is listed first is reading the default
    sheet. *)
Lemma read_first_listed
    (self : ExcelToPdfConverter) (w : world) (name : string) (rest : list string) :
  eval (list_sheets self) w = name :: rest →
  read_excel_data self (Some name) w = read_excel_data self None w.
Proof.
  intros Hlist. rewrite !read_excel_data_unfold.
  assert (Hsel : pd_read_excel (excel_file_path self) (sheet_asked (Some name)) w
                 = pd_read_excel (excel_file_path self) (sheet_asked None) w);
    [| by rewrite Hsel].
  unfold eval, list_sheets, try, mbind, M_bind, pd_ExcelFile in Hlist.
  unfold pd_read_excel, pd_ExcelFile, sheet_asked. simpl.
  destruct (files w !! excel_file_path self) as [[wb | doc | bytes]|];
    [| done | done | by destruct (bool_decide _)].
  simpl in Hlist. destruct wb as [|[n df] wb]; [done |].
  injection Hlist as -> _.
  destruct (Py.bool_str name); [| done].
  simpl. unfold pd.find_sheet. simpl. by rewrite String.eqb_refl.
Qed.

(** X6. The first sheet [list_sheets] reports is the default one: passing
    its name to [read_excel_data] or [convert_all_rows] does what passing
    no sheet name does. *)
Theorem first_listed_sheet_is_default
    (self : ExcelToPdfConverter) (filename_prefix : option string) (w : world)
    (name : string) (rest : list string) :
  eval (list_sheets self) w = name :: rest →
  read_excel_data self (Some name) w = read_excel_data self None w
  ∧ convert_all_rows self (Some name) filename_prefix w
    = convert_all_rows self None filename_prefix w.
Proof.
  intros Hlist. pose proof (read_first_listed self w name rest Hlist) as Hread.
  split; [exact Hread |].
  unfold convert_all_rows, mbind, M_bind. by rewrite Hread.
Qed.

Lemma first_listed_sheet_is_default_witness :
  convert_all_rows office_converter (Some "Staff") (Some "emp") (office_world no_write_error)
  = convert_all_rows office_converter None (Some "emp") (office_world no_write_error).
Proof.
  apply (first_listed_sheet_is_default office_converter (Some "emp")
           (office_world no_write_error) "Staff" ["Offices"]).
  reflexivity.
Defined.

(** ** Conversions at the edges *)

(** What [read_excel_data] returns depends on the workbook file alone. *)
Lemma read_excel_data_eval_agree
    (self : ExcelToPdfConverter) (sheet_name : option string) (w1 w2 : world) :
  files w1 !! excel_file_path self = files w2 !! excel_file_path self →
  eval (read_excel_data self sheet_name) w1 = eval (read_excel_data self sheet_name) w2.
Proof.
  intros Hbook. unfold eval. rewrite !read_excel_data_unfold.
  unfold pd_read_excel, pd_ExcelFile. rewrite Hbook.
  destruct (files w2 !! excel_file_path self) as [[wb | doc | bytes]|];
    [by destruct (pd.select_sheet wb _) | done | done |].
  by do 2 destruct (bool_decide _).
Qed.

(** The files a conversion leaves depend on the files and the write
    failures it starts from, not on what was printed or which directories
    exist. *)
Lemma convert_all_rows_files_agree
    (self : ExcelToPdfConverter) (sheet_name filename_prefix : option string)
    (w1 w2 : world) :
  files w1 = files w2 → write_error w1 = write_error w2 →
  files (exec (convert_all_rows self sheet_name filename_prefix) w1)
  = files (exec (convert_all_rows self sheet_name filename_prefix) w2).
Proof.
  intros Hfiles Herr.
  pose proof (read_excel_data_eval_agree self sheet_name w1 w2) as Hread.
  rewrite Hfiles in Hread. specialize (Hread eq_refl).
  destruct (eval (read_excel_data self sheet_name) w2) as [df|] eqn:E2.
  - apply map_eq. intros p.
    destruct (decide (p ∈ record_paths self
                        (default default_filename_prefix filename_prefix) (pd.len df)))
      as [Hin | Hout].
    + apply record_paths_elem_of in Hin as (k & Hk & ->).
      destruct (iterrows_row df k Hk) as [row Hrow].
      rewrite (convert_all_rows_files_row self sheet_name filename_prefix w1 df k row)
        by done.
      rewrite (convert_all_rows_files_row self sheet_name filename_prefix w2 df k row)
        by done.
      by rewrite Hfiles, Herr.
    + rewrite (convert_all_rows_files_other self sheet_name filename_prefix w1 df) by done.
      rewrite (convert_all_rows_files_other self sheet_name filename_prefix w2 df) by done.
      by rewrite Hfiles.
  - by rewrite !convert_all_rows_files_unread.
Qed.

(** X7. On a sheet without rows [convert_all_rows] writes nothing and
    prints three lines: the reader's, "Processing 0 rows..." and the
    closing line with 0. *)
Theorem convert_all_rows_empty_sheet
    (self : ExcelToPdfConverter) (sheet_name filename_prefix : option string)
    (w : world) (df : pd.DataFrame) :
  eval (read_excel_data self sheet_name) w = Some df →
  pd.len df = 0%nat →
  files (exec (convert_all_rows self sheet_name filename_prefix) w) = files w
  ∧ ∃ line,
      stdout (exec (convert_all_rows self sheet_name filename_prefix) w)
      = stdout w
        ++ [line; "Processing 0 rows...";
            "Conversion complete! 0 PDFs created in '" +:+ output_folder self +:+ "' folder"].
Proof.
  intros E Hlen. split.
  - apply map_eq. intros p.
    apply (convert_all_rows_files_other self sheet_name filename_prefix w df p E).
    rewrite Hlen. apply not_elem_of_nil.
  - destruct (read_excel_data_stdout self sheet_name w) as [line Hline]. exists line.
    rewrite (convert_all_rows_stdout self sheet_name filename_prefix w df E), Hline, Hlen.
    simpl. by rewrite <- app_assoc.
Qed.

Lemma convert_all_rows_empty_sheet_witness :
  files (exec (convert_all_rows office_converter None None)
           {| files := {[ "staff.xlsx" :=
                            Xlsx [("Staff", {| pd.columns := [pd.Name "Name"];
                                               pd.values := [] |})] ]};
              dirs := ∅; write_error := no_write_error; stdout := [];
              build_time := fun _ => noon; written_at := ∅ |})
  = {[ "staff.xlsx" := Xlsx [("Staff", {| pd.columns := [pd.Name "Name"];
                                          pd.values := [] |})] ]}.
Proof.
  destruct (convert_all_rows_empty_sheet office_converter None None
              {| files := {[ "staff.xlsx" :=
                               Xlsx [("Staff", {| pd.columns := [pd.Name "Name"];
                                                  pd.values := [] |})] ]};
                 dirs := ∅; write_error := no_write_error; stdout := [];
                 build_time := fun _ => noon; written_at := ∅ |}
              {| pd.columns := [pd.Name "Name"]; pd.values := [] |})
    as [Hfiles _]; [reflexivity | reflexivity |].
  exact Hfiles.
Defined.

(** X8. Converting again over the output of a conversion, with the same
    writes failing and the workbook as it was (the records do not
    overwrite it), leaves the same file names and, at every path, the same
    document; what is not a record stays on disk as it is, and each record
    written again carries the time of its new build. *)
Theorem convert_all_rows_again_same_documents
    (self : ExcelToPdfConverter) (sheet_name filename_prefix : option string)
    (w w2 : world) :
  (∀ df, eval (read_excel_data self sheet_name) w = Some df →
     excel_file_path self
     ∉ record_paths self (default default_filename_prefix filename_prefix) (pd.len df)) →
  files w2 = files (exec (convert_all_rows self sheet_name filename_prefix) w) →
  (∀ p, write_error w2 p = write_error w p) →
  dom (files (exec (convert_all_rows self sheet_name filename_prefix) w2)) = dom (files w2)
  ∧ (∀ p, document_at (exec (convert_all_rows self sheet_name filename_prefix) w2) p
          = document_at w2 p)
  ∧ (∀ p, (∀ df, eval (read_excel_data self sheet_name) w = Some df →
             p ∉ record_paths self (default default_filename_prefix filename_prefix)
                   (pd.len df)) →
          on_disk (exec (convert_all_rows self sheet_name filename_prefix) w2) p
          = on_disk w2 p)
  ∧ (∀ df (k : nat),
       eval (read_excel_data self sheet_name) w = Some df →
       (k < pd.len df)%nat →
       write_error w
         (pdf_path self (default default_filename_prefix filename_prefix) (Z.of_nat k))
       = None →
       written_at (exec (convert_all_rows self sheet_name filename_prefix) w2)
         !! pdf_path self (default default_filename_prefix filename_prefix) (Z.of_nat k)
       = Some (build_time w2
                 (pdf_path self (default default_filename_prefix filename_prefix)
                    (Z.of_nat k)))).
Proof.
  intros Hbook Hfiles Herr.
  set (w1 := exec (convert_all_rows self sheet_name filename_prefix) w) in *.
  assert (Hsame : ∀ p, files (exec (convert_all_rows self sheet_name filename_prefix) w2) !! p
                       = files w2 !! p
                  ∧ ((∀ df, eval (read_excel_data self sheet_name) w = Some df →
                        p ∉ record_paths self
                              (default default_filename_prefix filename_prefix) (pd.len df)) →
                     written_at (exec (convert_all_rows self sheet_name filename_prefix) w2)
                       !! p
                     = written_at w2 !! p)).
  { intros p. destruct (eval (read_excel_data self sheet_name) w) as [df|] eqn:E.
    - assert (E2 : eval (read_excel_data self sheet_name) w2 = Some df).
      { rewrite <- E. apply read_excel_data_eval_agree. rewrite Hfiles. subst w1.
        apply (convert_all_rows_files_other self sheet_name filename_prefix w df _ E).
        by apply Hbook. }
      destruct (decide (p ∈ record_paths self
                          (default default_filename_prefix filename_prefix) (pd.len df)))
        as [Hin | Hout].
      + split; [| intros Hno; by destruct (Hno df eq_refl)].
        apply record_paths_elem_of in Hin as (k & Hk & ->).
        destruct (iterrows_row df k Hk) as [row Hrow].
        rewrite (convert_all_rows_files_row self sheet_name filename_prefix w2 df k row)
          by done.
        rewrite Herr. destruct (write_error w _) eqn:Ew; [done |].
        rewrite Hfiles. subst w1.
        rewrite (convert_all_rows_files_row self sheet_name filename_prefix w df k row)
          by done.
        by rewrite Ew.
      + split; [| intros _].
        * by rewrite (convert_all_rows_files_other self sheet_name filename_prefix w2 df).
        * by rewrite (convert_all_rows_written_at_other self sheet_name filename_prefix
                        w2 df).
    - assert (E2 : eval (read_excel_data self sheet_name) w2 = None).
      { rewrite <- E. apply read_excel_data_eval_agree. rewrite Hfiles. subst w1.
        by rewrite convert_all_rows_files_unread. }
      rewrite convert_all_rows_files_unread, convert_all_rows_written_at_unread by done.
      done. }
  split.
  { apply set_eq. intros p. rewrite !elem_of_dom. by rewrite (proj1 (Hsame p)). }
  split; [intros p; unfold document_at; by rewrite (proj1 (Hsame p)) |].
  split.
  { intros p Hp. unfold on_disk. destruct (Hsame p) as [-> Hat]. by rewrite Hat. }
  intros df k E Hk Hok.
  assert (E2 : eval (read_excel_data self sheet_name) w2 = Some df).
  { rewrite <- E. apply read_excel_data_eval_agree. rewrite Hfiles. subst w1.
    apply (convert_all_rows_files_other self sheet_name filename_prefix w df _ E).
    by apply Hbook. }
  destruct (iterrows_row df k Hk) as [row Hrow].
  rewrite (convert_all_rows_written_at_row self sheet_name filename_prefix w2 df k row)
    by done.
  by rewrite Herr, Hok.
Qed.

Lemma convert_all_rows_again_same_documents_witness :
  document_at (exec (convert_all_rows office_converter None (Some "emp"))
                 (a_minute_later office_first_run)) "out/emp_001.pdf"
  = document_at office_first_run "out/emp_001.pdf"
  ∧ on_disk (exec (convert_all_rows office_converter None (Some "emp"))
               (a_minute_later office_first_run)) "out/notes.txt"
    = Some (Other "keep me", None)
  ∧ written_at office_first_run !! "out/emp_001.pdf" = Some noon
  ∧ written_at (exec (convert_all_rows office_converter None (Some "emp"))
                  (a_minute_later office_first_run)) !! "out/emp_001.pdf"
    = Some (noon + 60).
Proof.
  destruct (convert_all_rows_again_same_documents office_converter None (Some "emp")
              (office_world second_fails) (a_minute_later office_first_run))
    as (_ & Hdoc & Hdisk & Htime).
  - intros df Hdf. vm_compute in Hdf. injection Hdf as <-.
    intros [k [Hk E]]%record_paths_elem_of.
    vm_compute in Hk.
    do 4 (destruct k as [|k]; [vm_compute in E; discriminate |]). lia.
  - vm_compute. reflexivity.
  - intros p. vm_compute. reflexivity.
  - split; [rewrite (Hdoc "out/emp_001.pdf"); vm_compute; reflexivity |]. split.
    + rewrite Hdisk; [vm_compute; reflexivity |].
      intros df Hdf. vm_compute in Hdf. injection Hdf as <-.
      intros [k [Hk E]]%record_paths_elem_of.
      vm_compute in Hk.
      do 4 (destruct k as [|k]; [vm_compute in E; discriminate |]). lia.
    + split; [vm_compute; reflexivity |].
      etrans; [apply (Htime (pd.fillna_empty staff) 0%nat);
               [reflexivity | vm_compute; lia | reflexivity]
             | vm_compute; reflexivity].
Defined.

(** ** Creating the converter *)

Lemma no_file_among (w : world) (paths : list string) :
  Forall (fun p => files w !! p = None) paths → existsb (is_file w) paths = false.
Proof.
  induction 1 as [|p paths Hp _ IH]; [done |].
  simpl. rewrite IH, orb_false_r. unfold is_file. rewrite Hp.
  apply bool_decide_eq_false_2. by intros [? [=]].
Qed.

Lemma mkdir_p_free (folder : string) (w : world) :
  files w !! folder = None →
  Forall (fun p => files w !! p = None) (os_path.parents folder) →
  mkdir_p folder w
  = inr {| files := files w;
           dirs := dirs w ∪ list_to_set (os_path.parents folder) ∪ {[ folder ]};
           write_error := write_error w;
           stdout := stdout w;
           build_time := build_time w;
           written_at := written_at w |}.
Proof.
  intros Hfree Hup. unfold mkdir_p. by rewrite Hfree, (no_file_among _ _ Hup).
Qed.

(** X9. Creating a converter makes its output folder, ["pdf_output"] when
    none is given: when no file has the name of the folder or of one of
    its ancestors the folder is a directory afterwards, every directory and file there was is kept, nothing is
    printed, and creating it again changes nothing more; when a file has
    the folder's name the call raises [FileExistsError] and leaves the
    world as it was. *)
Theorem init_makes_output_folder
    (path : string) (folder : option string) (w : world) :
  (files w !! default default_output_folder folder = None →
   Forall (fun p => files w !! p = None)
     (os_path.parents (default default_output_folder folder)) →
   eval (__init__ path folder) w
   = inr {| excel_file_path := path;
            output_folder := default default_output_folder folder |}
   ∧ default default_output_folder folder ∈ dirs (exec (__init__ path folder) w)
   ∧ dirs w ⊆ dirs (exec (__init__ path folder) w)
   ∧ files (exec (__init__ path folder) w) = files w
   ∧ stdout (exec (__init__ path folder) w) = stdout w
   ∧ dirs (exec (__init__ path folder) (exec (__init__ path folder) w))
     = dirs (exec (__init__ path folder) w))
  ∧ (is_Some (files w !! default default_output_folder folder) →
     __init__ path folder w
     = (inl (Py.FileExistsError (default default_output_folder folder)), w))
  ∧ default default_output_folder None = "pdf_output".
Proof.
  unfold eval, exec, __init__. split; [| split; [| done]].
  - intros Hfree Hup. rewrite (mkdir_p_free _ w Hfree Hup). cbn [fst snd].
    rewrite mkdir_p_free by done. simpl.
    split; [done |]. split; [set_unfold; tauto |]. split; [set_unfold; tauto |].
    split; [done |]. split; [done |].
    apply set_eq. intros p. set_unfold. tauto.
  - intros [f Hf]. unfold mkdir_p. by rewrite Hf.
Qed.

(** A nested folder is made with its ancestors. *)
Example init_nested_folder :
  "reports" ∈ dirs (exec (__init__ "staff.xlsx" (Some "reports/2024/pdf"))
                      (office_world no_write_error))
  ∧ "reports/2024" ∈ dirs (exec (__init__ "staff.xlsx" (Some "reports/2024/pdf"))
                             (office_world no_write_error))
  ∧ "reports/2024/pdf" ∈ dirs (exec (__init__ "staff.xlsx" (Some "reports/2024/pdf"))
                                 (office_world no_write_error)).
Proof. repeat split; apply bool_decide_eq_true; vm_compute; reflexivity. Qed.

(** ** File names for any row index *)

Lemma string_of_int_zeros_pos (k : nat) (d : Decimal.uint) :
  NilEmpty.string_of_int (Decimal.Pos (Nat.iter k Decimal.D0 d))
  = Py.zeros k +:+ NilEmpty.string_of_uint d.
Proof.
  induction k as [|k IH]; [done |].
  simpl in *. by rewrite IH.
Qed.

Lemma string_of_int_zeros_neg (k : nat) (d : Decimal.uint) :
  NilEmpty.string_of_int (Decimal.Neg (Nat.iter k Decimal.D0 d))
  = "-" +:+ Py.zeros k +:+ NilEmpty.string_of_uint d.
Proof.
  pose proof (string_of_int_zeros_pos k d) as H. simpl in *. by rewrite H.
Qed.

(** The text [format_03d] prints is a numeral of the number printed,
    negative numbers included. *)
Lemma format_03d_int (z : Z) :
  Z.of_int <$> NilEmpty.int_of_string (Py.format_03d z) = Some z.
Proof.
  unfold Py.format_03d. pose proof (DecimalZ.of_to z) as Hof.
  destruct (Z.to_int z) as [d|d]; simpl in Hof; cbv zeta.
  - rewrite <- string_of_int_zeros_pos, NilEmpty.isi. simpl.
    by rewrite of_uint_leading_zeros, Hof.
  - rewrite <- string_of_int_zeros_neg, NilEmpty.isi. simpl.
    by rewrite of_uint_leading_zeros, Hof.
Qed.

Lemma format_03d_inj_all (z1 z2 : Z) : Py.format_03d z1 = Py.format_03d z2 → z1 = z2.
Proof.
  intros E. apply (f_equal (fun s => Z.of_int <$> NilEmpty.int_of_string s)) in E.
  rewrite !format_03d_int in E. congruence.
Qed.

Lemma format_03d_width_all (z : Z) : (3 ≤ String.length (Py.format_03d z))%nat.
Proof.
  unfold Py.format_03d. destruct (Z.to_int z) as [d|d].
  - rewrite append_length, zeros_length. lia.
  - rewrite !append_length, zeros_length. simpl. lia.
Qed.

(** X10. Whatever the row index, negative ones included, the number in
    the file name [create_pdf_from_row] uses is a numeral of the index
    plus one, at least three characters long, so the name and the path
    tell the rows apart: two indices with the same path are the same. *)
Theorem pdf_path_tells_rows_apart
    (self : ExcelToPdfConverter) (filename_prefix : string) (i j : Z) :
  Z.of_int <$> NilEmpty.int_of_string (Py.format_03d (i + 1)) = Some (i + 1)
  ∧ (3 ≤ String.length (Py.format_03d (i + 1)))%nat
  ∧ (pdf_filename filename_prefix i = pdf_filename filename_prefix j → i = j)
  ∧ (pdf_path self filename_prefix i = pdf_path self filename_prefix j → i = j).
Proof.
  assert (Hname : ∀ a b, pdf_filename filename_prefix a = pdf_filename filename_prefix b →
                         a = b).
  { intros a b E. unfold pdf_filename in E.
    apply (inj (String.append filename_prefix)), (inj (String.append "_")) in E.
    apply append_inj_r, format_03d_inj_all in E. lia. }
  split; [apply format_03d_int |]. split; [apply format_03d_width_all |].
  split; [apply Hname |].
  intros E. unfold pdf_path in E. apply join_inj in E; [by apply Hname |].
  by rewrite !pdf_filename_startswith_sep.
Qed.

Example format_03d_negative :
  Py.format_03d (-5) = "-05" ∧ Py.format_03d (-1234) = "-1234" ∧ Py.format_03d 0 = "000".
Proof. repeat split; reflexivity. Qed.

(** ** The table *)

(** X11. The table built from a row has two cells in every row: the text
    of the column label, and the text of the value, which is empty for a
    missing value and [str(value)] for any other, number or not. *)
Theorem table_data_two_cells (row_data : list (pd.label * pd.cell)) :
  Forall (fun cells => length cells = 2%nat) (table_data_of row_data)
  ∧ map rl.field_name (table_data_of row_data)
    = map (fun item => pd.str_label item.1) row_data
  ∧ map rl.field_value (table_data_of row_data)
    = map (fun item => if pd.isna item.2 then "" else pd.str item.2) row_data.
Proof.
  rewrite table_data_of_map. split; [| split].
  - apply Forall_forall. by intros cells (item & -> & _)%list_elem_of_fmap.
  - by rewrite map_map.
  - rewrite map_map. apply map_ext. intros [c v]. unfold value_str. simpl.
    by destruct (pd.isna v), (pd.is_number v).
Qed.

(** ** A call of [create_pdf_from_row], and the calls of the loop *)


Lemma iterrows_rows_have_items (df : pd.DataFrame) :
  pd.well_formed df = true → pd.columns df ≠ [] →
  Forall (fun ir : Z * pd.Series => ir.2 ≠ []) (pd.iterrows df).
Proof.
  intros Hwf Hcols. apply Forall_lookup. intros k [index row] Hk.
  rewrite iterrows_lookup in Hk.
  destruct (pd.values df !! k) as [cells|] eqn:Hcells; [| done].
  injection Hk as <- <-. simpl.
  assert (Hlen : length cells = length (pd.columns df)).
  { unfold pd.well_formed in Hwf. rewrite forallb_forall in Hwf.
    apply Nat.eqb_eq, Hwf, list_elem_of_In. by eapply list_elem_of_lookup_2. }
  destruct (pd.columns df) as [|c cs]; [done |].
  by destruct cells.
Qed.

(** X19. In a frame that has a column and a cell per column in every
    row, as a sheet with rows is read, every row [iterrows] yields has an
    item: no call of [create_pdf_from_row] in the loop of
    [convert_all_rows] raises, and the loop is the loop over [build_pdf]. *)
Theorem convert_all_rows_calls_do_not_raise
    (self : ExcelToPdfConverter) (filename_prefix : option string) (df : pd.DataFrame)
    (w : world) :
  pd.well_formed df = true → pd.columns df ≠ [] →
  (∀ (k : nat) index row, pd.iterrows df !! k = Some (index, row) → row ≠ [])
  ∧ for_each_raising (pd.iterrows df)
      (fun '(index, row) => create_pdf_from_row self row index filename_prefix) w
    = (inr tt,
       exec (for_each (pd.iterrows df)
               (fun '(index, row) => build_pdf self row index filename_prefix)) w).
Proof.
  intros Hwf Hcols.
  pose proof (iterrows_rows_have_items df Hwf Hcols) as Hrows.
  split.
  { intros k index row Hk. rewrite Forall_lookup in Hrows. exact (Hrows k _ Hk). }
  revert w. induction Hrows as [|[index row] rows Hrow _ IH]; intros w; [done |].
  simpl in *. rewrite create_pdf_from_row_build by done. rewrite IH.
  unfold exec, mbind, M_bind. simpl. by destruct (build_pdf _ _ _ _ w).
Qed.

Lemma convert_all_rows_calls_do_not_raise_witness :
  for_each_raising (pd.iterrows (pd.fillna_empty staff))
    (fun '(index, row) => create_pdf_from_row office_converter row index (Some "emp"))
    (office_world second_fails)
  = (inr tt,
     exec (for_each (pd.iterrows (pd.fillna_empty staff))
             (fun '(index, row) => build_pdf office_converter row index (Some "emp")))
       (office_world second_fails)).
Proof.
  apply (convert_all_rows_calls_do_not_raise office_converter (Some "emp")
           (pd.fillna_empty staff) (office_world second_fails)).
  - reflexivity.
  - discriminate.
Defined.

(** ** The command line *)

Section command_line_facts.
Context (strip : string → string) (int : string → option Z)
        (str_list : list string → string).

Local Arguments list_sheets : simpl never.
Local Arguments __init__ : simpl never.

(** X12. When the path [main] is given, as its first argument or else as
    the first line typed, names no file and no directory, [main] prints
    that the file was not found and returns: it reads no further input,
    and creates no file and no directory, the default output folder
    included. *)
Theorem main_missing_file
    (argv stdin rest : list string) (excel_file : string) (w : world) :
  (∃ prog more, argv = prog :: excel_file :: more ∧ rest = stdin)
  ∨ ((length argv ≤ 1)%nat ∧ stdin = excel_file :: rest) →
  files w !! excel_file = None →
  excel_file ∉ dirs w →
  (main strip int str_list argv stdin w).1 = (inr tt, rest)
  ∧ files (main strip int str_list argv stdin w).2 = files w
  ∧ dirs (main strip int str_list argv stdin w).2 = dirs w
  ∧ last (stdout (main strip int str_list argv stdin w).2)
    = Some ("Error: File '" +:+ excel_file +:+ "' not found!").
Proof.
  intros Hpath Hfile Hdir.
  destruct Hpath as [(prog & more & -> & ->) | [Hlen ->]].
  - unfold main, ask_excel_file, mbind, IO_bind, lift, mret, IO_ret. simpl.
    rewrite Hfile, bool_decide_eq_false_2 by done. simpl. by rewrite last_snoc.
  - assert (Hargv : ask_excel_file argv = input "Enter the path to your Excel file: ").
    { destruct argv as [|prog [|arg more]]; [done | done | simpl in Hlen; lia]. }
    unfold main, mbind, IO_bind, lift, mret, IO_ret. rewrite Hargv. simpl.
    rewrite Hfile, bool_decide_eq_false_2 by done. simpl. by rewrite last_snoc.
Qed.

End command_line_facts.

Lemma main_missing_file_witness :
  (run_main ["excel_to_pdf.py"] ["missing.xlsx"; "never read"]
     (office_world no_write_error)).1
  = (inr tt, ["never read"])
  ∧ dirs (run_main ["excel_to_pdf.py"] ["missing.xlsx"; "never read"]
            (office_world no_write_error)).2
    = {[ "out" ]}.
Proof.
  destruct (main_missing_file ascii_strip ascii_int ascii_str_list ["excel_to_pdf.py"] ["missing.xlsx"; "never read"]
              ["never read"] "missing.xlsx" (office_world no_write_error))
    as (Hres & _ & Hdirs & _).
  - right. split; [simpl; lia | reflexivity].
  - reflexivity.
  - apply (bool_decide_eq_false_1 ("missing.xlsx" ∈ dirs (office_world no_write_error))).
    vm_compute. reflexivity.
  - split; [exact Hres | exact Hdirs].
Defined.

Lemma print_each_world (lines : list string) (w : world) :
  files (exec (print_each lines) w) = files w
  ∧ dirs (exec (print_each lines) w) = dirs w
  ∧ write_error (exec (print_each lines) w) = write_error w.
Proof.
  revert w. induction lines as [|line lines IH]; intros w; [done |].
  unfold exec in *. simpl. unfold mbind, M_bind. simpl.
  destruct (IH (exec (print line) w)) as (Hf & Hd & He). unfold exec in *. simpl in *.
  by rewrite Hf, Hd, He.
Qed.

Lemma lift_run {A} (m : M A) (stdin : list string) (w : world) :
  lift m stdin w = (inr (eval m w), stdin, exec m w).
Proof. unfold lift, eval, exec. by destruct (m w). Qed.

Section sheet_choice.
Context (strip : string → string) (int : string → option Z).

(** Asking for the sheet prints and reads, and touches nothing else. *)
Lemma ask_sheet_world (sheets stdin : list string) (w : world) :
  files (ask_sheet strip int sheets stdin w).2 = files w
  ∧ dirs (ask_sheet strip int sheets stdin w).2 = dirs w
  ∧ write_error (ask_sheet strip int sheets stdin w).2 = write_error w.
Proof.
  unfold ask_sheet. destruct (1 <? length sheets)%nat; [| done].
  unfold mbind, IO_bind. rewrite !lift_run.
  set (w1 := exec (print_each _) _).
  assert (H1 : files w1 = files w ∧ dirs w1 = dirs w ∧ write_error w1 = write_error w).
  { subst w1. destruct (print_each_world
      (imap (fun (i : nat) sheet => Py.str_int (Z.of_nat i + 1) +:+ ". " +:+ sheet) sheets)
      (exec (print (nl +:+ "Multiple sheets found:")) w)) as (Hf & Hd & He).
    by rewrite Hf, Hd, He. }
  clearbody w1. unfold input. destruct stdin as [|choice rest]; [done |].
  destruct (Py.bool_str (strip choice)); [| done].
  destruct (int choice) as [n|]; [| done].
  destruct ((0 <=? n - 1) && (n - 1 <? Z.of_nat (length sheets))); done.
Qed.

(** X13. The sheet [main] selects is always one of the sheets listed (or
    [None] when none is listed): with two sheets or more, a line that
    [int] reads as a number from 1 to the number of sheets selects the
    sheet of that number, and any other line the first sheet; with fewer
    nothing is asked and the first sheet, if any, is taken.  Asking
    changes no file and no directory. *)
Theorem ask_sheet_selects_listed_sheet
    (sheets stdin stdin' : list string) (w w' : world) (selected : option string) :
  ask_sheet strip int sheets stdin w = (inr selected, stdin', w') →
  (sheets = [] → selected = None)
  ∧ (sheets ≠ [] → ∃ sheet, selected = Some sheet ∧ sheet ∈ sheets)
  ∧ (selected = head sheets
     ∨ ∃ choice n, stdin = choice :: stdin' ∧ (1 < length sheets)%nat
                   ∧ Py.bool_str (strip choice) = true ∧ int choice = Some n
                   ∧ 1 <= n <= Z.of_nat (length sheets)
                   ∧ selected = sheets !! Z.to_nat (n - 1))
  ∧ (∀ choice n, (1 < length sheets)%nat → stdin = choice :: stdin' →
       Py.bool_str (strip choice) = true → int choice = Some n →
       1 <= n <= Z.of_nat (length sheets) →
       selected = sheets !! Z.to_nat (n - 1))
  ∧ ((length sheets ≤ 1)%nat → stdin' = stdin)
  ∧ files w' = files w ∧ dirs w' = dirs w.
Proof.
  intros Hrun.
  pose proof (ask_sheet_world sheets stdin w) as (Hf & Hd & _).
  rewrite Hrun in Hf, Hd. simpl in Hf, Hd.
  assert (Hcases :
    (selected = head sheets ∧ ((length sheets ≤ 1)%nat → stdin' = stdin)
     ∧ ∀ choice n, (1 < length sheets)%nat → stdin = choice :: stdin' →
         Py.bool_str (strip choice) = true → int choice = Some n →
         1 <= n <= Z.of_nat (length sheets) → False)
    ∨ ∃ choice n, stdin = choice :: stdin' ∧ (1 < length sheets)%nat
                  ∧ Py.bool_str (strip choice) = true ∧ int choice = Some n
                  ∧ 1 <= n <= Z.of_nat (length sheets)
                  ∧ selected = sheets !! Z.to_nat (n - 1)).
  { unfold ask_sheet in Hrun.
    destruct (1 <? length sheets)%nat eqn:Hmany.
    - apply Nat.ltb_lt in Hmany.
      unfold mbind, IO_bind, mret, IO_ret in Hrun. rewrite !lift_run in Hrun.
      unfold input in Hrun. destruct stdin as [|choice rest]; [done |].
      destruct (Py.bool_str (strip choice)) eqn:Hstrip.
      + destruct (int choice) as [n|] eqn:Hint.
        * destruct ((0 <=? n - 1) && (n - 1 <? Z.of_nat (length sheets))) eqn:Hrange.
          -- simplify_eq/=. right. exists choice, n.
             apply andb_prop in Hrange as [?%Z.leb_le ?%Z.ltb_lt].
             repeat split; try done; lia.
          -- rewrite lift_run in Hrun. simplify_eq/=.
             left. split; [done |]. split; [lia |].
             intros c m _ Hc _ Hm Hin. simplify_eq.
             apply andb_false_iff in Hrange as [?%Z.leb_gt | ?%Z.ltb_ge]; lia.
        * rewrite lift_run in Hrun. simplify_eq/=.
          left. split; [done |]. split; [lia |].
          intros c m _ Hc _ Hm. by simplify_eq.
      + simplify_eq/=. left. split; [done |]. split; [lia |].
        intros c m _ Hc Hs. simplify_eq. by rewrite Hstrip in Hs.
    - apply Nat.ltb_ge in Hmany. unfold mret, IO_ret in Hrun. simplify_eq/=.
      left. split; [done |]. split; [done |]. intros; lia. }
  assert (Hin : sheets ≠ [] → ∃ sheet, selected = Some sheet ∧ sheet ∈ sheets).
  { intros Hne. destruct Hcases as [(-> & _) | (choice & n & _ & _ & _ & _ & Hn & ->)].
    - destruct sheets as [|sheet sheets]; [done |]. exists sheet. split; [done | by left].
    - destruct (lookup_lt_is_Some_2 sheets (Z.to_nat (n - 1))) as [sheet Hsheet]; [lia |].
      exists sheet. split; [done |]. by eapply list_elem_of_lookup_2. }
  split.
  { intros ->. destruct Hcases as [(-> & _) | (? & ? & _ & Hlen & _)]; [done |].
    simpl in Hlen. lia. }
  split; [exact Hin |]. split.
  { destruct Hcases as [(-> & _) | Hnum]; [by left | by right]. }
  split.
  { intros choice n Hmany Hstdin Hs Hint Hn.
    destruct Hcases as [(_ & _ & Hno) | (c & m & Hc & _ & _ & Hm & _ & ->)].
    - by destruct (Hno choice n).
    - rewrite Hstdin in Hc. injection Hc as <-. rewrite Hint in Hm. by injection Hm as <-. }
  split; [| done].
  intros Hfew. destruct Hcases as [(_ & Hsame & _) | (? & ? & _ & Hlen & _)]; [auto | exfalso; lia].
Qed.

End sheet_choice.

Lemma ask_sheet_selects_listed_sheet_witness :
  (∃ sheet, Some "Offices" = Some sheet ∧ sheet ∈ ["Staff"; "Offices"])
  ∧ Some "Offices" = ["Staff"; "Offices"] !! Z.to_nat (2 - 1).
Proof.
  destruct (ask_sheet_selects_listed_sheet ascii_strip ascii_int ["Staff"; "Offices"]
              [" 2 "; "emp"] ["emp"] (office_world no_write_error)
              (ask_sheet ascii_strip ascii_int ["Staff"; "Offices"] [" 2 "; "emp"]
                 (office_world no_write_error)).2
              (Some "Offices"))
    as (_ & Hin & _ & Hnum & _).
  - reflexivity.
  - split; [by apply Hin |].
    apply (Hnum " 2 " 2);
      [simpl; lia | reflexivity | reflexivity | reflexivity | simpl; lia].
Defined.

(** ** Running [main] step by step *)

Lemma IO_bind_inr {A B} (m : IO A) (k : A → IO B) (stdin stdin' : list string)
    (w w' : world) (a : A) :
  m stdin w = (inr a, stdin', w') → (m ≫= k) stdin w = k a stdin' w'.
Proof. unfold mbind, IO_bind. by intros ->. Qed.

(** Directories that exist before a step and after each step that may
    follow it exist at the end. *)
Lemma IO_bind_dirs {A B} (m : IO A) (k : A → IO B) (D : gset string)
    (stdin : list string) (w : world) :
  D ⊆ dirs (m stdin w).2 →
  (∀ a stdin' w', D ⊆ dirs w' → D ⊆ dirs (k a stdin' w').2) →
  D ⊆ dirs ((m ≫= k) stdin w).2.
Proof.
  unfold mbind, IO_bind. destruct (m stdin w) as [[[s|a] stdin'] w']; simpl; auto.
Qed.

Lemma input_world (prompt : string) (stdin : list string) (w : world) :
  files (input prompt stdin w).2 = files w
  ∧ dirs (input prompt stdin w).2 = dirs w
  ∧ write_error (input prompt stdin w).2 = write_error w.
Proof. unfold input. by destruct stdin. Qed.

Lemma mkdir_world (folder : string) (stdin : list string) (w : world) :
  files (unguarded (mkdir folder) stdin w).2 = files w
  ∧ dirs w ⊆ dirs (unguarded (mkdir folder) stdin w).2
  ∧ write_error (unguarded (mkdir folder) stdin w).2 = write_error w.
Proof.
  unfold unguarded, mkdir, mkdir_p. destruct (files w !! folder); simpl; [done |].
  destruct (existsb _ _); simpl; [done |].
  split; [done |]. split; [set_unfold; tauto | done].
Qed.

Lemma mkdir_free (folder : string) (stdin : list string) (w : world) :
  files w !! folder = None →
  Forall (fun p => files w !! p = None) (os_path.parents folder) →
  ∃ w', unguarded (mkdir folder) stdin w = (inr tt, stdin, w')
        ∧ files w' = files w ∧ write_error w' = write_error w ∧ folder ∈ dirs w'.
Proof.
  intros Hfree Hup. unfold unguarded, mkdir. rewrite mkdir_p_free by done. eexists.
  split; [done |]. simpl. split; [done |]. split; [done |]. set_unfold. tauto.
Qed.

Lemma init_free (excel_file : string) (stdin : list string) (w : world) :
  files w !! "pdf_output" = None →
  ∃ w', unguarded (__init__ excel_file None) stdin w
        = (inr {| excel_file_path := excel_file; output_folder := "pdf_output" |},
           stdin, w')
        ∧ files w' = files w ∧ write_error w' = write_error w
        ∧ "pdf_output" ∈ dirs w'.
Proof.
  intros Hfree.
  assert (Hfree' : files w !! default default_output_folder None = None) by exact Hfree.
  unfold unguarded, __init__. cbv zeta.
  rewrite mkdir_p_free by (done || apply Forall_nil_2). eexists.
  split; [done |]. simpl. split; [done |]. split; [done |]. set_unfold. tauto.
Qed.

Lemma list_sheets_world (self : ExcelToPdfConverter) (w : world) :
  files (exec (list_sheets self) w) = files w
  ∧ dirs (exec (list_sheets self) w) = dirs w
  ∧ write_error (exec (list_sheets self) w) = write_error w.
Proof.
  unfold exec, list_sheets, try, mbind, M_bind.
  by destruct (pd_ExcelFile (excel_file_path self) w).
Qed.

Lemma list_sheets_eval_agree (self : ExcelToPdfConverter) (w1 w2 : world) :
  files w1 !! excel_file_path self = files w2 !! excel_file_path self →
  eval (list_sheets self) w1 = eval (list_sheets self) w2.
Proof.
  intros Hbook. unfold eval, list_sheets, try, mbind, M_bind, pd_ExcelFile.
  rewrite Hbook.
  destruct (files w2 !! excel_file_path self) as [[wb | doc | bytes]|]; [done | done | done |].
  by do 2 destruct (bool_decide _).
Qed.

Section main_facts.
Context (strip : string → string) (int : string → option Z)
        (str_list : list string → string).

Lemma ask_filename_prefix_dirs (stdin : list string) (w : world) :
  dirs (ask_filename_prefix strip stdin w).2 = dirs w.
Proof. unfold ask_filename_prefix, mbind, IO_bind, input. by destruct stdin. Qed.

Lemma ask_output_folder_dirs (stdin : list string) (w : world) :
  dirs (ask_output_folder strip stdin w).2 = dirs w.
Proof. unfold ask_output_folder, mbind, IO_bind, input. by destruct stdin. Qed.

(** Once the converter is created nothing removes a directory. *)
Lemma main_with_file_dirs (excel_file : string) (stdin : list string) (w : world) :
  files w !! "pdf_output" = None →
  "pdf_output" ∈ dirs (main_with_file strip int str_list excel_file stdin w).2.
Proof.
  intros Hfree. apply elem_of_subseteq_singleton.
  unfold main_with_file. apply IO_bind_dirs.
  { destruct (init_free excel_file stdin w Hfree) as (w' & -> & _ & _ & Hin).
    by apply elem_of_subseteq_singleton. }
  intros converter stdin1 w1 H1. apply IO_bind_dirs.
  { rewrite lift_run. simpl. by rewrite (proj1 (proj2 (list_sheets_world converter w1))). }
  intros sheets stdin2 w2 H2. apply IO_bind_dirs; [by rewrite lift_run |].
  intros _ stdin3 w3 H3. apply IO_bind_dirs.
  { by rewrite (proj1 (proj2 (ask_sheet_world strip int sheets stdin3 w3))). }
  intros selected stdin4 w4 H4. apply IO_bind_dirs; [by rewrite ask_filename_prefix_dirs |].
  intros prefix stdin5 w5 H5. apply IO_bind_dirs; [by rewrite ask_output_folder_dirs |].
  intros folder stdin6 w6 H6. apply IO_bind_dirs.
  { etrans; [exact H6 |]. apply mkdir_world. }
  intros _ stdin7 w7 H7. apply IO_bind_dirs; [| done].
  rewrite lift_run. simpl. by rewrite convert_all_rows_dirs.
Qed.

(** X14. Once the workbook path names a file or directory, [main] makes
    the directory ["pdf_output"] (unless a file has that name), whatever
    output folder is typed later and however the run ends. *)
Theorem main_makes_default_folder
    (argv stdin : list string) (excel_file : string) (w : world) :
  (∃ prog more, argv = prog :: excel_file :: more)
  ∨ ((length argv ≤ 1)%nat ∧ head stdin = Some excel_file) →
  is_Some (files w !! excel_file) ∨ excel_file ∈ dirs w →
  files w !! "pdf_output" = None →
  "pdf_output" ∈ dirs (main strip int str_list argv stdin w).2.
Proof.
  intros Hpath Hfound Hfree.
  assert (Hexists : ∀ w', files w' = files w → dirs w' = dirs w →
            os_path_exists excel_file w' = (true, w')).
  { intros w' Hf Hd. unfold os_path_exists. rewrite Hf, Hd.
    destruct Hfound as [[f ->] | Hdir]; [done |].
    destruct (files w !! excel_file); [done |]. by rewrite bool_decide_eq_true_2. }
  assert (Hask : ∃ stdin1 w1,
            ask_excel_file argv stdin
              (exec (print (String.concat "" (replicate 50 "=")))
                 (exec (print "Excel to PDF Converter") w))
            = (inr excel_file, stdin1, w1)
            ∧ files w1 = files w ∧ dirs w1 = dirs w).
  { destruct Hpath as [(prog & more & ->) | [Hlen Hhead]].
    - by eexists _, _.
    - destruct argv as [|prog [|arg more]]; [| | simpl in Hlen; lia];
        destruct stdin as [|line rest]; simplify_eq/=; by eexists _, _. }
  destruct Hask as (stdin1 & w1 & Hask & Hf1 & Hd1).
  unfold main.
  rewrite (IO_bind_inr _ _ stdin stdin _ _ tt) by apply lift_run.
  rewrite (IO_bind_inr _ _ stdin stdin _ _ tt) by apply lift_run.
  rewrite (IO_bind_inr _ _ _ _ _ _ _ Hask).
  rewrite (IO_bind_inr _ _ stdin1 stdin1 w1 w1 true)
    by (rewrite lift_run; unfold eval, exec; by rewrite Hexists).
  simpl. apply main_with_file_dirs. by rewrite Hf1.
Qed.

End main_facts.

Lemma main_makes_default_folder_witness :
  "pdf_output" ∈ dirs (run_main ["excel_to_pdf.py"; "staff.xlsx"] ["1"; "emp"; "out"]
                         (office_world no_write_error)).2.
Proof.
  apply (main_makes_default_folder ascii_strip ascii_int ascii_str_list
           ["excel_to_pdf.py"; "staff.xlsx"] ["1"; "emp"; "out"] "staff.xlsx"
           (office_world no_write_error)).
  - left. by eexists _, _.
  - left. by eexists.
  - reflexivity.
Defined.

Section main_defaults.
Context (strip : string → string) (int : string → option Z)
        (str_list : list string → string).
Hypothesis strip_empty : strip "" = "".

(** An empty line at the sheet prompt, or no prompt, gives the first
    sheet; two empty lines are left of three. *)
Lemma ask_sheet_enter (sheets more : list string) (w : world) :
  ∃ more' w',
    ask_sheet strip int sheets ("" :: "" :: "" :: more) w
    = (inr (head sheets), "" :: "" :: more', w')
    ∧ files w' = files w ∧ write_error w' = write_error w.
Proof.
  pose proof (ask_sheet_world strip int sheets ("" :: "" :: "" :: more) w)
    as (Hf & _ & He).
  unfold ask_sheet in *. destruct (1 <? length sheets)%nat.
  - unfold mbind, IO_bind in *. rewrite !lift_run in *. unfold input in *.
    rewrite strip_empty in *. simpl in *. by eexists _, _.
  - by eexists _, _.
Qed.

Lemma ask_filename_prefix_enter (rest : list string) (w : world) :
  ∃ w', ask_filename_prefix strip ("" :: rest) w = (inr "row", rest, w')
        ∧ files w' = files w ∧ write_error w' = write_error w.
Proof.
  unfold ask_filename_prefix, mbind, IO_bind, input. rewrite strip_empty.
  by eexists.
Qed.

Lemma ask_output_folder_enter (rest : list string) (w : world) :
  ∃ w', ask_output_folder strip ("" :: rest) w = (inr "pdf_output", rest, w')
        ∧ files w' = files w ∧ write_error w' = write_error w.
Proof.
  unfold ask_output_folder, mbind, IO_bind, input. rewrite strip_empty.
  by eexists.
Qed.

(** X15. Pressing Enter at every prompt converts the default sheet with
    the default names: when the first argument names the workbook (a file
    or directory that exists), no file is called ["pdf_output"], and the
    lines typed are empty, [main] runs to its end and leaves the files
    that [convert_all_rows], called with no sheet name and no prefix on a
    converter for ["pdf_output"], leaves. *)
Theorem main_all_defaults
    (prog excel_file : string) (more_argv more : list string) (w : world) :
  is_Some (files w !! excel_file) ∨ excel_file ∈ dirs w →
  files w !! "pdf_output" = None →
  (main strip int str_list (prog :: excel_file :: more_argv) ("" :: "" :: "" :: more) w).1.1
  = inr tt
  ∧ files (main strip int str_list (prog :: excel_file :: more_argv)
             ("" :: "" :: "" :: more) w).2
    = files (exec (convert_all_rows
                     {| excel_file_path := excel_file; output_folder := "pdf_output" |}
                     None None) w).
Proof.
  intros Hfound Hfree.
  set (stdin := "" :: "" :: "" :: more).
  set (self := {| excel_file_path := excel_file; output_folder := "pdf_output" |}).
  assert (Hexists : ∀ w', files w' = files w → dirs w' = dirs w →
            os_path_exists excel_file w' = (true, w')).
  { intros w' Hf Hd. unfold os_path_exists. rewrite Hf, Hd.
    destruct Hfound as [[f ->] | Hdir]; [done |].
    destruct (files w !! excel_file); [done |]. by rewrite bool_decide_eq_true_2. }
  unfold main.
  rewrite (IO_bind_inr _ _ stdin stdin _ _ tt) by apply lift_run.
  rewrite (IO_bind_inr _ _ stdin stdin _ _ tt) by apply lift_run.
  set (w0 := exec (print (String.concat "" (replicate 50 "="))) _).
  rewrite (IO_bind_inr _ _ stdin stdin w0 w0 excel_file) by done.
  rewrite (IO_bind_inr _ _ stdin stdin w0 w0 true)
    by (rewrite lift_run; unfold eval, exec; by rewrite Hexists).
  cbn [negb]. unfold main_with_file.
  destruct (init_free excel_file stdin w0 Hfree) as (w1 & Hinit & Hf1 & He1 & _).
  rewrite (IO_bind_inr _ _ _ _ _ _ _ Hinit). fold self.
  rewrite (IO_bind_inr _ _ stdin stdin w1 _ _ (lift_run _ _ _)).
  set (sheets := eval (list_sheets self) w1).
  set (w2 := exec (list_sheets self) w1).
  pose proof (list_sheets_world self w1) as (Hf2 & _ & He2). fold w2 in Hf2, He2.
  rewrite (IO_bind_inr _ _ stdin stdin w2 _ _ (lift_run _ _ _)).
  set (w3 := exec (print _) w2).
  destruct (ask_sheet_enter sheets more w3) as (more' & w4 & Hsheet & Hf4 & He4).
  rewrite (IO_bind_inr _ _ _ _ _ _ _ Hsheet).
  destruct (ask_filename_prefix_enter ("" :: more') w4) as (w5 & Hprefix & Hf5 & He5).
  rewrite (IO_bind_inr _ _ _ _ _ _ _ Hprefix).
  destruct (ask_output_folder_enter more' w5) as (w6 & Hfolder & Hf6 & He6).
  rewrite (IO_bind_inr _ _ _ _ _ _ _ Hfolder).
  cbv zeta. change {| excel_file_path := excel_file_path self;
                      output_folder := "pdf_output" |} with self.
  assert (Hfiles6 : files w6 = files w).
  { rewrite Hf6, Hf5, Hf4. subst w3. simpl. by rewrite Hf2, Hf1. }
  assert (Herr6 : write_error w6 = write_error w).
  { rewrite He6, He5, He4. subst w3. simpl. by rewrite He2, He1. }
  destruct (mkdir_free "pdf_output" more' w6) as (w7 & Hmkdir & Hf7 & He7 & _);
    [by rewrite Hfiles6 | apply Forall_nil_2 |].
  rewrite (IO_bind_inr _ _ _ _ _ _ _ Hmkdir).
  rewrite (IO_bind_inr _ _ more' more' w7 _ _ (lift_run _ _ _)).
  unfold mret, IO_ret. cbn [fst snd]. split; [done |].
  assert (Hsheets : eval (list_sheets self) w7 = sheets).
  { subst sheets. apply list_sheets_eval_agree. by rewrite Hf7, Hfiles6, Hf1. }
  assert (Hdefault : convert_all_rows self (head sheets) (Some "row") w7
                     = convert_all_rows self None (Some "row") w7).
  { destruct sheets as [|name rest] eqn:Hs; [done |].
    change (head (name :: rest)) with (Some name).
    unfold convert_all_rows, mbind, M_bind.
    by rewrite (read_first_listed self w7 name rest Hsheets). }
  unfold exec at 1. rewrite Hdefault.
  apply (convert_all_rows_files_agree self None None w7 w).
  - by rewrite Hf7.
  - by rewrite He7.
Qed.

End main_defaults.

Lemma main_all_defaults_witness :
  (run_main ["excel_to_pdf.py"; "staff.xlsx"] [""; ""; ""] (office_world no_write_error)).1.1
  = inr tt
  ∧ files (run_main ["excel_to_pdf.py"; "staff.xlsx"] [""; ""; ""]
             (office_world no_write_error)).2
    = files (exec (convert_all_rows
                     {| excel_file_path := "staff.xlsx"; output_folder := "pdf_output" |}
                     None None) (office_world no_write_error)).
Proof.
  apply (main_all_defaults ascii_strip ascii_int ascii_str_list eq_refl
           "excel_to_pdf.py" "staff.xlsx" [] [] (office_world no_write_error)).
  - left. by eexists.
  - reflexivity.
Defined.

(** ** Where the files go *)

(** X16. A record file lies under the output folder unless the prefix is
    absolute: its path is the folder, a separator when the folder is not
    empty and does not end with one, and the file name; a prefix that
    starts with a separator makes [os.path.join] drop the folder, and
    the path is the file name alone. *)
Theorem pdf_path_under_output_folder
    (self : ExcelToPdfConverter) (filename_prefix : string) (row_index : Z) :
  (os_path.startswith_sep filename_prefix = true →
   pdf_path self filename_prefix row_index = pdf_filename filename_prefix row_index)
  ∧ (os_path.startswith_sep filename_prefix = false →
     pdf_path self filename_prefix row_index
     = output_folder self
       +:+ (if negb (Py.bool_str (output_folder self))
               || os_path.endswith_sep (output_folder self)
            then "" else "/")
       +:+ pdf_filename filename_prefix row_index).
Proof.
  unfold pdf_path, os_path.join. rewrite pdf_filename_startswith_sep.
  split; intros ->; [done |].
  by destruct (negb (Py.bool_str (output_folder self))
               || os_path.endswith_sep (output_folder self)).
Qed.

Example pdf_path_examples :
  pdf_path office_converter "emp" 0 = "out/emp_001.pdf"
  ∧ pdf_path office_converter "/tmp/emp" 0 = "/tmp/emp_001.pdf"
  ∧ pdf_path {| excel_file_path := "staff.xlsx"; output_folder := "out/" |} "emp" 11
    = "out/emp_012.pdf".
Proof. repeat split; reflexivity. Qed.

(** A folder typed under a file stops [main]: nobody catches what
    [mkdir] raises. *)
Example main_folder_under_a_file :
  (run_main ["excel_to_pdf.py"; "staff.xlsx"] ["1"; "emp"; "out/notes.txt/pdf"]
     (office_world no_write_error)).1.1
  = inl (Uncaught (Py.NotADirectoryError "out/notes.txt/pdf")).
Proof. vm_compute. reflexivity. Qed.

Example ascii_int_examples :
  ascii_int " 12 " = Some 12 ∧ ascii_int "-3" = Some (-3) ∧ ascii_int "1_000" = Some 1000
  ∧ ascii_int "1__0" = None ∧ ascii_int "_1" = None ∧ ascii_int "" = None
  ∧ ascii_int "two" = None.
Proof. repeat split; reflexivity. Qed.

(** ** [main] as a call of [convert_all_rows] *)

Section main_as_typed.
Context (strip : string → string) (int : string → option Z)
        (str_list : list string → string).

(** What is selected and what input is left do not depend on the world. *)
Lemma ask_sheet_result_agree (sheets stdin : list string) (w1 w2 : world) :
  (ask_sheet strip int sheets stdin w1).1 = (ask_sheet strip int sheets stdin w2).1.
Proof.
  unfold ask_sheet. destruct (1 <? length sheets)%nat; [| done].
  unfold mbind, IO_bind. rewrite !lift_run. unfold input.
  destruct stdin as [|choice rest]; [done |].
  destruct (Py.bool_str (strip choice)); [| done].
  destruct (int choice) as [n|]; [| by rewrite !lift_run].
  destruct ((0 <=? n - 1) && (n - 1 <? Z.of_nat (length sheets))); [done |].
  by rewrite !lift_run.
Qed.

Lemma ask_filename_prefix_run (line : string) (rest : list string) (w : world) :
  ask_filename_prefix strip (line :: rest) w
  = (inr (if Py.bool_str (strip line) then strip line else "row"), rest,
     exec (print "Enter filename prefix (default: 'row'): ") w).
Proof. reflexivity. Qed.

Lemma ask_output_folder_run (line : string) (rest : list string) (w : world) :
  ask_output_folder strip (line :: rest) w
  = (inr (if Py.bool_str (strip line) then strip line else "pdf_output"), rest,
     exec (print "Enter output folder name (default: 'pdf_output'): ") w).
Proof. reflexivity. Qed.

(** X17. When the first argument names the workbook and the answers are
    read to the end, [main] does what the answers say: it leaves the files
    that [convert_all_rows] leaves for the sheet selected, with the prefix
    typed (["row"] for an empty line) and a converter for the folder typed
    (["pdf_output"] for an empty line), and that folder is a directory
    afterwards.  No file may be in the way of either folder, nor of an
    ancestor of the folder typed. *)
Theorem main_converts_as_typed
    (prog excel_file : string) (more_argv stdin more : list string)
    (typed_prefix typed_folder : string) (selected : option string) (w : world) :
  is_Some (files w !! excel_file) ∨ excel_file ∈ dirs w →
  files w !! "pdf_output" = None →
  (ask_sheet strip int
     (eval (list_sheets {| excel_file_path := excel_file; output_folder := "pdf_output" |}) w)
     stdin w).1
  = (inr selected, typed_prefix :: typed_folder :: more) →
  files w !! (if Py.bool_str (strip typed_folder) then strip typed_folder else "pdf_output")
  = None →
  Forall (fun p => files w !! p = None)
    (os_path.parents
       (if Py.bool_str (strip typed_folder) then strip typed_folder else "pdf_output")) →
  (main strip int str_list (prog :: excel_file :: more_argv) stdin w).1 = (inr tt, more)
  ∧ files (main strip int str_list (prog :: excel_file :: more_argv) stdin w).2
    = files (exec (convert_all_rows
                     {| excel_file_path := excel_file;
                        output_folder := if Py.bool_str (strip typed_folder)
                                         then strip typed_folder else "pdf_output" |}
                     selected
                     (Some (if Py.bool_str (strip typed_prefix)
                            then strip typed_prefix else "row"))) w)
  ∧ (if Py.bool_str (strip typed_folder) then strip typed_folder else "pdf_output")
    ∈ dirs (main strip int str_list (prog :: excel_file :: more_argv) stdin w).2.
Proof.
  intros Hfound Hfree Hsel Hfolder Hup.
  set (self := {| excel_file_path := excel_file; output_folder := "pdf_output" |}) in *.
  set (folder := if Py.bool_str (strip typed_folder) then strip typed_folder
                 else "pdf_output") in *.
  set (prefix := if Py.bool_str (strip typed_prefix) then strip typed_prefix else "row").
  assert (Hexists : ∀ w', files w' = files w → dirs w' = dirs w →
            os_path_exists excel_file w' = (true, w')).
  { intros w' Hf Hd. unfold os_path_exists. rewrite Hf, Hd.
    destruct Hfound as [[f ->] | Hdir]; [done |].
    destruct (files w !! excel_file); [done |]. by rewrite bool_decide_eq_true_2. }
  unfold main.
  rewrite (IO_bind_inr _ _ stdin stdin _ _ tt) by apply lift_run.
  rewrite (IO_bind_inr _ _ stdin stdin _ _ tt) by apply lift_run.
  set (w0 := exec (print (String.concat "" (replicate 50 "="))) _).
  rewrite (IO_bind_inr _ _ stdin stdin w0 w0 excel_file) by done.
  rewrite (IO_bind_inr _ _ stdin stdin w0 w0 true)
    by (rewrite lift_run; unfold eval, exec; by rewrite Hexists).
  cbn [negb]. unfold main_with_file.
  destruct (init_free excel_file stdin w0 Hfree) as (w1 & Hinit & Hf1 & He1 & _).
  rewrite (IO_bind_inr _ _ _ _ _ _ _ Hinit). fold self.
  rewrite (IO_bind_inr _ _ stdin stdin w1 _ _ (lift_run _ _ _)).
  assert (Hsheets : eval (list_sheets self) w1 = eval (list_sheets self) w).
  { apply list_sheets_eval_agree. by rewrite Hf1. }
  rewrite Hsheets.
  set (w2 := exec (list_sheets self) w1).
  pose proof (list_sheets_world self w1) as (Hf2 & _ & He2). fold w2 in Hf2, He2.
  rewrite (IO_bind_inr _ _ stdin stdin w2 _ _ (lift_run _ _ _)).
  set (w3 := exec (print _) w2).
  pose proof (ask_sheet_world strip int (eval (list_sheets self) w) stdin w3)
    as (Hf4 & _ & He4).
  pose proof (ask_sheet_result_agree (eval (list_sheets self) w) stdin w3 w) as Hagree.
  rewrite Hsel in Hagree.
  destruct (ask_sheet strip int (eval (list_sheets self) w) stdin w3)
    as [[res4 stdin4] w4] eqn:Hask.
  simpl in Hagree, Hf4, He4. injection Hagree as -> ->.
  rewrite (IO_bind_inr _ _ _ _ _ _ _ Hask).
  rewrite (IO_bind_inr _ _ _ _ _ _ _ (ask_filename_prefix_run _ _ _)).
  rewrite (IO_bind_inr _ _ _ _ _ _ _ (ask_output_folder_run _ _ _)).
  cbv zeta. fold folder prefix.
  set (w5 := exec (print "Enter filename prefix (default: 'row'): ") w4).
  set (w6 := exec (print "Enter output folder name (default: 'pdf_output'): ") w5).
  assert (Hfiles6 : files w6 = files w).
  { subst w6 w5 w3. simpl. by rewrite Hf4, Hf2, Hf1. }
  assert (Herr6 : write_error w6 = write_error w).
  { subst w6 w5 w3. simpl. by rewrite He4, He2, He1. }
  destruct (mkdir_free folder more w6) as (w7 & Hmkdir & Hf7 & He7 & Hin7);
    [by rewrite Hfiles6
    | eapply Forall_impl; [exact Hup | intros p Hp; by rewrite Hfiles6] |].
  rewrite (IO_bind_inr _ _ _ _ _ _ _ Hmkdir).
  rewrite (IO_bind_inr _ _ more more w7 _ _ (lift_run _ _ _)).
  unfold mret, IO_ret. cbn [fst snd]. split; [done |]. split.
  - apply convert_all_rows_files_agree; [by rewrite Hf7 | by rewrite He7].
  - by rewrite convert_all_rows_dirs.
Qed.

End main_as_typed.

Lemma main_converts_as_typed_witness :
  (run_main ["excel_to_pdf.py"; "staff.xlsx"] ["2"; " city "; "out"; "left over"]
     (office_world no_write_error)).1
  = (inr tt, ["left over"])
  ∧ files (run_main ["excel_to_pdf.py"; "staff.xlsx"] ["2"; " city "; "out"; "left over"]
             (office_world no_write_error)).2
    = files (exec (convert_all_rows office_converter (Some "Offices") (Some "city"))
               (office_world no_write_error)).
Proof.
  destruct (main_converts_as_typed ascii_strip ascii_int ascii_str_list
              "excel_to_pdf.py" "staff.xlsx" [] ["2"; " city "; "out"; "left over"]
              ["left over"] " city " "out" (Some "Offices") (office_world no_write_error))
    as (Hres & Hfiles & _).
  - left. by eexists.
  - reflexivity.
  - reflexivity.
  - reflexivity.
  - apply Forall_nil_2.
  - split; [exact Hres | exact Hfiles].
Defined.
